(** * JUnit XML enrichment with AI failure analysis

    A shallow embedding of [examples/pytest-junitxml/conftest_junit_ai_utils.py]
    and [examples/pytest-junitxml/conftest_junit_ai.py]: the identifier
    translator, the report mutator, the analysis client and the two pytest
    hooks, with the properties the specification states about them. *)

From Stdlib Require Import ZArith Ascii String List Bool Lia DecimalString.
From stdpp Require Import base option gmap strings list fin_maps.

Set Warnings "-register-all".
#[local] Arguments String.append !_ _ / : simpl nomatch.


(** ** Python strings *)

Module PyStr.

Definition colon : ascii := ":"%char.

(** Put a character in front of the first segment. *)
Definition push (c : ascii) (segs : list string) : list string :=
  match segs with
  | seg :: rest => String c seg :: rest
  | [] => [String c EmptyString]
  end.

(** [s.split("::")]: the separator is matched left to right, without
    overlap; the result is never empty. *)
Fixpoint split (s : string) : list string :=
  match s with
  | EmptyString => [EmptyString]
  | String c r =>
      match r with
      | String c' r' =>
          if Ascii.eqb c colon && Ascii.eqb c' colon
          then EmptyString :: split r'
          else push c (split r)
      | EmptyString => push c (split r)
      end
  end.

(** [s.count("::")]: the number of occurrences met by the same scan. *)
Fixpoint count (s : string) : nat :=
  match s with
  | EmptyString => 0
  | String c r =>
      match r with
      | String c' r' =>
          if Ascii.eqb c colon && Ascii.eqb c' colon
          then S (count r')
          else count r
      | EmptyString => count r
      end
  end.

(** [sep.join(parts)]. *)
Fixpoint join (sep : string) (parts : list string) : string :=
  match parts with
  | [] => EmptyString
  | [p] => p
  | p :: rest => p +:+ sep +:+ join sep rest
  end.

(** [s.replace("/", ".")]. *)
Fixpoint replace_slash (s : string) : string :=
  match s with
  | EmptyString => EmptyString
  | String c r =>
      String (if Ascii.eqb c "/"%char then "."%char else c) (replace_slash r)
  end.

(** [s.removesuffix(suf)]: [s] without [suf] when it ends with it (and
    [suf] is not empty), [s] itself otherwise. *)
Fixpoint removesuffix (suf s : string) : string :=
  match s with
  | EmptyString => EmptyString
  | String c r =>
      if String.eqb s suf then EmptyString else String c (removesuffix suf r)
  end.

(** [s.rstrip("/")]. *)
Fixpoint rstrip_slash (s : string) : string :=
  match s with
  | EmptyString => EmptyString
  | String c r =>
      match rstrip_slash r with
      | EmptyString => if Ascii.eqb c "/"%char then EmptyString else String c EmptyString
      | r' => String c r'
      end
  end.


(** The segments of a split: no segment but the last can be followed by a
    colon and show the separator, and the last shows none; so each
    separator of the joined text is the leftmost one after the previous. *)
Fixpoint segments (parts : list string) : Prop :=
  match parts with
  | [] => True
  | [p] => count p = 0
  | p :: rest => count (p +:+ ":") = 0 /\ segments rest
  end.

(** [s.startswith(p)], as a proposition. *)
Definition starts_with (p s : string) : Prop := exists rest, s = p +:+ rest.

End PyStr.

(** ** The identifier translator *)

(** [parts[0].replace("/", ".").removesuffix(".py")] *)
Definition module_of (path : string) : string :=
  PyStr.removesuffix ".py" (PyStr.replace_slash path).

Definition nodeid_to_classname_and_name (nodeid : string) : string * string :=
  let parts := PyStr.split nodeid in
  let module := module_of (hd EmptyString parts) in
  match parts with
  | [_; p1; p2] => (module +:+ "." +:+ p1, p2)
  | [_; p1] => (module, p1)
  | _ => (EmptyString, nodeid)
  end.

(** ** Exceptions and outcomes *)

(** The classes of the exceptions the two modules can meet. All of them
    derive from Python's [Exception]; the last five are
    [requests.RequestException] and its subclasses. The exits and interrupts
    of the interpreter ([SystemExit], [KeyboardInterrupt]), which are not of
    class [Exception], are not part of the model. *)
Inductive exc_class :=
| AttributeError | TypeError | ValueError | RuntimeError
| OSError | FileNotFoundError | PermissionError | ParseError
| RequestException | ConnectionError | Timeout | HTTPError | InvalidJSONError.

(** An exception: its class, [str(exc)], and the text of [exc.response] when
    the exception carries a response. *)
Record exn := Exn {
  exc_type : exc_class;
  exc_str : string;
  exc_response : option string
}.

Definition is_RequestException (c : exc_class) : bool :=
  match c with
  | RequestException | ConnectionError | Timeout | HTTPError | InvalidJSONError => true
  | _ => false
  end.

Definition raise_of (c : exc_class) (msg : string) : exn := Exn c msg None.

(** What a call does: it returns a value or raises. *)
Inductive outcome (A : Type) :=
| Return (a : A)
| Raise (e : exn).
Arguments Return {A} a.
Arguments Raise {A} e.

Definition bind {A B : Type} (m : outcome A) (k : A -> outcome B) : outcome B :=
  match m with
  | Return a => k a
  | Raise e => Raise e
  end.

Notation "'let*' x ':=' m 'in' k" := (bind m (fun x => k))
  (at level 10, x name, m at level 100, k at level 200).

(** ** Python values decoded from JSON *)

(** A float is carried by whether it is non-zero and by its [str]. *)
Record pyfloat := Float { float_nonzero : bool; float_str : string }.

(** A dict keeps its items in insertion order, its keys distinct. *)
Inductive value :=
| VNone
| VBool (b : bool)
| VInt (n : Z)
| VFloat (x : pyfloat)
| VStr (s : string)
| VList (items : list value)
| VDict (items : list (string * value)).

(** [bool(v)] *)
Definition truthy (v : value) : bool :=
  match v with
  | VNone => false
  | VBool b => b
  | VInt n => negb (n =? 0)%Z
  | VFloat x => float_nonzero x
  | VStr s => negb (String.eqb s "")
  | VList items => match items with [] => false | _ => true end
  | VDict items => match items with [] => false | _ => true end
  end.

(** [isinstance(v, dict)] *)
Definition is_dict (v : value) : bool :=
  match v with VDict _ => true | _ => false end.

Fixpoint assoc {A : Type} (key : string) (items : list (string * A)) : option A :=
  match items with
  | [] => None
  | (k, a) :: rest => if String.eqb k key then Some a else assoc key rest
  end.

(** [v.get(key, default)]: only a dict has the method. *)
Definition get (v : value) (key : string) (default : value) : outcome value :=
  match v with
  | VDict items => Return (from_option id default (assoc key items))
  | _ => Raise (raise_of AttributeError "object has no attribute 'get'")
  end.

(** A str is carried as its UTF-8 text, in which a byte [10xxxxxx]
    continues the character begun before it. *)
Definition continuation (c : ascii) : bool :=
  let n := nat_of_ascii c in (128 <=? n)%nat && (n <? 192)%nat.

(** The characters of a str, in order, each with the bytes that continue
    it. *)
Fixpoint chars (s : string) : list string :=
  match s with
  | EmptyString => []
  | String c r =>
      match r with
      | String c' _ =>
          if continuation c' then PyStr.push c (chars r)
          else String c EmptyString :: chars r
      | EmptyString => [String c EmptyString]
      end
  end.

(** [list(iter(v))]: the items of a list, the characters of a str, the keys
    of a dict; nothing else decoded from JSON is iterable. *)

Definition iterate (v : value) : outcome (list value) :=
  match v with
  | VList items => Return items
  | VStr s => Return (VStr <$> chars s)
  | VDict items => Return ((fun kv => VStr (fst kv)) <$> items)
  | _ => Raise (raise_of TypeError "object is not iterable")
  end.

(** The items of [sep.join(...)] must all be of class str. *)
Fixpoint strings_of (items : list value) : outcome (list string) :=
  match items with
  | [] => Return []
  | VStr s :: rest => let* rest' := strings_of rest in Return (s :: rest')
  | _ :: _ => Raise (raise_of TypeError "sequence item: expected str instance")
  end.

(** [sep.join(v)] *)
Definition join_value (sep : string) (v : value) : outcome string :=
  let* items := iterate v in
  let* parts := strings_of items in
  Return (PyStr.join sep parts).

Definition str_of_Z (n : Z) : string := NilZero.string_of_int (Z.to_int n).

Definition nl : string := String "010"%char EmptyString.

(** ** XML elements *)

(** An [xml.etree.ElementTree.Element]: tag, attributes in insertion order,
    text, children, tail. *)
Inductive element := Element {
  tag : string;
  attrib : list (string * string);
  text : option string;
  children : list element;
  tail : option string
}.

Definition new_element (name : string) : element := Element name [] None [] None.

Definition set_children (e : element) (cs : list element) : element :=
  Element (tag e) (attrib e) (text e) cs (tail e).

Definition set_text (e : element) (t : option string) : element :=
  Element (tag e) (attrib e) t (children e) (tail e).

(** [e.get(key, default)] *)
Definition attr (e : element) (key default : string) : string :=
  from_option id default (assoc key (attrib e)).

(** The first element with the tag in a list of children. *)
Fixpoint find_in (name : string) (cs : list element) : option element :=
  match cs with
  | [] => None
  | c :: rest => if String.eqb (tag c) name then Some c else find_in name rest
  end.

(** [e.find(name)]: the first child with the tag. *)
Definition find (name : string) (e : element) : option element :=
  find_in name (children e).

(** The children after the first one with the tag [name] has become
    [new], or with [new] at the end when no child has the tag. *)
Fixpoint put_in (name : string) (new : element) (cs : list element) : list element :=
  match cs with
  | [] => [new]
  | c :: rest =>
      if String.eqb (tag c) name then new :: rest else c :: put_in name new rest
  end.

(** The state of [e] once its child [e.find(name)], or the child made by
    [ET.SubElement(e, name)] when there is none, has been mutated to [new]. *)
Definition put_child (name : string) (new : element) (e : element) : element :=
  set_children e (put_in name new (children e)).

(** [ET.SubElement(parent, name)] followed by [set] calls: the new child is
    added at the end. *)
Definition sub_element (parent : element) (child : element) : element :=
  set_children parent (children parent ++ [child]).

(** ** The report mutator *)

Section Mutator.

(** [str(v)] for a list or a dict is Python's [repr], a builtin outside
    these modules. *)
Variable container_str : value -> string.

(** [str(v)], which is also what an f-string puts for [{v}]. *)
Definition py_str (v : value) : string :=
  match v with
  | VNone => "None"
  | VBool b => if b then "True" else "False"
  | VInt n => str_of_Z n
  | VFloat x => float_str x
  | VStr s => s
  | VList _ | VDict _ => container_str v
  end.

(** The [property] element with its two attributes set. *)
Definition property (name value : string) : element :=
  Element "property" [("name", name); ("value", value)] None [] None.

Definition add_property (properties_elem : element) (name : string) (v : value)
  : element :=
  if truthy v
  then sub_element properties_elem (property name (py_str v))
  else properties_elem.

Definition format_analysis_text (analysis : value) : outcome string :=
  let parts := [] in
  let* classification := get analysis "classification" (VStr "") in
  let parts :=
    if truthy classification
    then parts ++ ["Classification: " +:+ py_str classification] else parts in
  let* details := get analysis "details" (VStr "") in
  let parts :=
    if truthy details then parts ++ [nl +:+ py_str details] else parts in
  let* code_fix := get analysis "code_fix" VNone in
  let* parts :=
    if truthy code_fix && is_dict code_fix then
      let* file := get code_fix "file" (VStr "") in
      let* line := get code_fix "line" (VStr "") in
      let* change := get code_fix "change" (VStr "") in
      Return (parts ++ [nl +:+ "Code Fix:";
                        "  File: " +:+ py_str file;
                        "  Line: " +:+ py_str line;
                        "  Change: " +:+ py_str change])
    else Return parts in
  let* bug_report := get analysis "product_bug_report" VNone in
  let* parts :=
    if truthy bug_report && is_dict bug_report then
      let* title := get bug_report "title" (VStr "") in
      let* severity := get bug_report "severity" (VStr "") in
      let* component := get bug_report "component" (VStr "") in
      let* description := get bug_report "description" (VStr "") in
      Return (parts ++ [nl +:+ "Product Bug:";
                        "  Title: " +:+ py_str title;
                        "  Severity: " +:+ py_str severity;
                        "  Component: " +:+ py_str component;
                        "  Description: " +:+ py_str description])
    else Return parts in
  Return (match parts with [] => "" | _ => PyStr.join nl parts end).

Definition delimiter : string := nl +:+ nl +:+ "--- AI Analysis ---" +:+ nl.

(** The [system-out] part of [inject_analysis]. *)
Definition inject_system_out (testcase : element) (new_text : string) : element :=
  if negb (String.eqb new_text "") then
    match find "system-out" testcase with
    | None => sub_element testcase (Element "system-out" [] (Some new_text) [] None)
    | Some system_out =>
        let existing := from_option id "" (text system_out) in
        put_child "system-out"
          (set_text system_out
             (Some (if negb (String.eqb existing "")
                    then existing +:+ delimiter +:+ new_text else new_text)))
          testcase
    end
  else testcase.

(** The calls of [add_property] in [inject_analysis], on the element
    bound to [properties]. *)
Definition inject_properties (properties : element) (analysis : value)
  : outcome element :=
  let* classification := get analysis "classification" (VStr "") in
  let properties := add_property properties "ai_classification" classification in
  let* details := get analysis "details" (VStr "") in
  let properties := add_property properties "ai_details" details in
  let* affected := get analysis "affected_tests" (VList []) in
  let* properties :=
    if truthy affected then
      let* joined := join_value ", " affected in
      Return (add_property properties "ai_affected_tests" (VStr joined))
    else Return properties in
  let* code_fix := get analysis "code_fix" VNone in
  let* properties :=
    if truthy code_fix && is_dict code_fix then
      let* file := get code_fix "file" (VStr "") in
      let properties := add_property properties "ai_code_fix_file" file in
      let* line := get code_fix "line" (VStr "") in
      let properties := add_property properties "ai_code_fix_line" line in
      let* change := get code_fix "change" (VStr "") in
      Return (add_property properties "ai_code_fix_change" change)
    else Return properties in
  let* bug_report := get analysis "product_bug_report" VNone in
  if truthy bug_report && is_dict bug_report then
    let* title := get bug_report "title" (VStr "") in
    let properties := add_property properties "ai_bug_title" title in
    let* severity := get bug_report "severity" (VStr "") in
    let properties := add_property properties "ai_bug_severity" severity in
    let* component := get bug_report "component" (VStr "") in
    let properties := add_property properties "ai_bug_component" component in
    let* description := get bug_report "description" (VStr "") in
    Return (add_property properties "ai_bug_description" description)
  else Return properties.

(** [inject_analysis(testcase, analysis)]. The element bound to
    [properties] is a child of [testcase], the first with that tag or a
    new last one, and is mutated in place; here it is passed through the
    calls and put back with [put_child]. *)
Definition inject_analysis (testcase : element) (analysis : value) : outcome element :=
  let properties :=
    from_option id (new_element "properties") (find "properties" testcase) in
  let* properties := inject_properties properties analysis in
  let testcase := put_child "properties" properties testcase in
  let* new_text := format_analysis_text analysis in
  Return (inject_system_out testcase new_text).

(** The body of the loop over [tree.iter("testcase")]. *)
Definition inject_if_known (analysis_map : gmap (string * string) value)
    (testcase : element) : outcome element :=
  let key := (attr testcase "classname" "", attr testcase "name" "") in
  match analysis_map !! key with
  | Some analysis => inject_analysis testcase analysis
  | None => Return testcase
  end.

(** A visit of each element of a list, in order, until one raises. [None]
    is a visit that ran out of fuel. *)
Fixpoint visit_all (visit : element -> option (outcome element))
    (cs : list element) : option (outcome (list element)) :=
  match cs with
  | [] => Some (Return [])
  | c :: rest =>
      match visit c with
      | None => None
      | Some (Raise e) => Some (Raise e)
      | Some (Return c') =>
          match visit_all visit rest with
          | None => None
          | Some (Raise e) => Some (Raise e)
          | Some (Return rest') => Some (Return (c' :: rest'))
          end
      end
  end.

(** [for testcase in tree.iter("testcase"): ...]: [Element.iter] yields
    the element itself when the tag matches, the loop body mutates it, and
    the generator then walks the children the element has by then. *)
Fixpoint iter_testcases (fuel : nat) (analysis_map : gmap (string * string) value)
    (e : element) : option (outcome element) :=
  match fuel with
  | 0 => None
  | S fuel' =>
      match (if String.eqb (tag e) "testcase"
             then inject_if_known analysis_map e else Return e) with
      | Raise x => Some (Raise x)
      | Return e1 =>
          match visit_all (iter_testcases fuel' analysis_map) (children e1) with
          | None => None
          | Some (Raise x) => Some (Raise x)
          | Some (Return cs) => Some (Return (set_children e1 cs))
          end
      end
  end.

(** Fuel that is enough for the walk: the height of the tree, and two
    more levels under a testcase for the elements an injection adds. *)
Fixpoint need (e : element) : nat :=
  match e with
  | Element name _ _ cs _ =>
      S (fold_right (fun c n => Nat.max (need c) n)
           (if String.eqb name "testcase" then 2 else 0) cs)
  end.

(** The loop over the parsed tree. *)
Definition enrich_tree (analysis_map : gmap (string * string) value) (root : element)
  : outcome element :=
  match iter_testcases (need root) analysis_map root with
  | Some r => r
  | None => Raise (raise_of RuntimeError "walk did not finish")
  end.

End Mutator.

(** ** Paths and files

    Paths are those of a POSIX system, as pathlib's [PurePosixPath] has
    them, carried by their text. *)

Module Path.

Definition slash : ascii := "/"%char.
Definition dot : ascii := "."%char.

Fixpoint has_char (c : ascii) (s : string) : bool :=
  match s with
  | EmptyString => false
  | String c' r => Ascii.eqb c' c || has_char c r
  end.

(** [s.split("/")] *)
Fixpoint parts_of (s : string) : list string :=
  match s with
  | EmptyString => [EmptyString]
  | String c r =>
      if Ascii.eqb c slash then EmptyString :: parts_of r
      else PyStr.push c (parts_of r)
  end.

(** The root of a POSIX path: one slash, or two when the path begins with
    exactly two. *)
Definition root_of (s : string) : string :=
  if String.prefix "///" s then "/"
  else if String.prefix "//" s then "//"
  else if String.prefix "/" s then "/"
  else "".

(** A part pathlib keeps: neither empty nor ["."]. *)
Definition kept_part (part : string) : bool :=
  negb (String.eqb part "") && negb (String.eqb part ".").

(** [str(Path(raw))]: the root, and the parts that are neither empty nor
    ["."] joined by one slash each; ["."] when nothing is left. *)
Definition normal (raw : string) : string :=
  let s := root_of raw +:+ PyStr.join "/" (List.filter kept_part (parts_of raw)) in
  if String.eqb s "" then "." else s.

(** A path as the text up to and with its last ["/"], and its [name]. *)
Fixpoint split_name (p : string) : string * string :=
  match p with
  | EmptyString => (EmptyString, EmptyString)
  | String c r =>
      if has_char slash p
      then (String c (fst (split_name r)), snd (split_name r))
      else (EmptyString, p)
  end.

(** A text cut in front of its last ["."]. *)
Fixpoint cut_last_dot (s : string) : option (string * string) :=
  match s with
  | EmptyString => None
  | String c r =>
      match cut_last_dot r with
      | Some (a, b) => Some (String c a, b)
      | None => if Ascii.eqb c dot then Some (EmptyString, s) else None
      end
  end.

(** [(name[:-len(suffix)], suffix)] for pathlib's [suffix]:
    [i = name.rfind(".")], and [name[i:]] when [0 < i < len(name) - 1],
    the empty string otherwise. *)
Definition stem_suffix (name : string) : string * string :=
  match cut_last_dot name with
  | Some (a, b) =>
      if negb (String.eqb a "") && (1 <? String.length b) then (a, b)
      else (name, EmptyString)
  | None => (name, EmptyString)
  end.

(** [Path(p).with_suffix(suffix)], for a suffix pathlib accepts and a path
    in pathlib's normal form: the name, which is what follows the last
    ["/"], loses its suffix and gets the new one; a path without a name
    (the root, or ["."]) is refused. *)
Definition with_suffix (p suffix : string) : outcome string :=
  let (dir, name) := split_name p in
  if String.eqb name "" || String.eqb p "."
  then Raise (raise_of ValueError "path has an empty name")
  else Return (dir +:+ fst (stem_suffix name) +:+ suffix).

End Path.

(** ** The host of the pipeline *)

Inductive level := WARNING | ERROR.

Record log_record := Log { log_level : level; log_message : string }.

Inductive phase := setup | call | teardown.

(** A collected failure, as [pytest_runtest_makereport] builds it. *)
Record failure := Failure {
  test_name : string;
  error_message : string;
  stack_trace : string;
  duration : pyfloat;
  status : string;
  when : phase
}.

(** The arguments of the call of [requests.post]. *)
Record request := Request {
  url : string;
  json_failures : list failure;
  json_ai_provider : string;
  json_ai_model : string;
  timeout : Z
}.

(** The response object, by what its two methods do. *)
Record response := Response {
  raise_for_status : outcome unit;
  json : outcome value
}.

(** What the pipeline reads and what it changes: whether [import requests]
    worked, [os.environ], the regular files by path (a path in pathlib's
    normal form, one path for one file), the records given to the logger,
    and the calls of [requests.post], by their arguments. The last two
    fields are what the file system refuses: a copy from one path to
    another that fails with an exception, having left a text at the
    destination ([None]: the destination is as it was), and the removal of
    a path that fails. *)
Record world := World {
  requests : bool;
  environ : gmap string string;
  files : gmap string string;
  logged : list log_record;
  posted : list request;
  copy_fault : string -> string -> option (option string * exn);
  unlink_fault : string -> option exn
}.

Definition set_files (w : world) (fs : gmap string string) : world :=
  World (requests w) (environ w) fs (logged w) (posted w)
    (copy_fault w) (unlink_fault w).

Definition add_log (w : world) (r : log_record) : world :=
  World (requests w) (environ w) (files w) (logged w ++ [r]) (posted w)
    (copy_fault w) (unlink_fault w).

Definition add_post (w : world) (r : request) : world :=
  World (requests w) (environ w) (files w) (logged w) (posted w ++ [r])
    (copy_fault w) (unlink_fault w).

(** A statement: from a world to an outcome and the world it leaves. *)
Definition M (A : Type) : Type := world -> outcome A * world.

Definition ret {A : Type} (a : A) : M A := fun w => (Return a, w).

Definition throw {A : Type} (e : exn) : M A := fun w => (Raise e, w).

Definition lift {A : Type} (o : outcome A) : M A := fun w => (o, w).

Definition seq {A B : Type} (m : M A) (k : A -> M B) : M B :=
  fun w =>
    match m w with
    | (Return a, w') => k a w'
    | (Raise e, w') => (Raise e, w')
    end.

Notation "'let!' x ':=' m 'in' k" := (seq m (fun x => k))
  (at level 10, x name, m at level 100, k at level 200).
Notation "m ';;;' k" := (seq m (fun _ => k))
  (at level 100, k at level 200, right associativity).

(** [try: body except Exception: handler]. Every exception of the model is
    an [Exception]. *)
Definition try_except {A : Type} (body : M A) (handler : exn -> M A) : M A :=
  fun w =>
    match body w with
    | (Raise e, w') => handler e w'
    | r => r
    end.

Definition warning (msg : string) : M unit :=
  fun w => (Return tt, add_log w (Log WARNING msg)).

Definition error (msg : string) : M unit :=
  fun w => (Return tt, add_log w (Log ERROR msg)).

(** [Path(p).exists()], for regular files. *)
Definition path_exists (p : string) (w : world) : bool :=
  bool_decide (is_Some (files w !! p)).

Definition read_file (p : string) : M string :=
  fun w =>
    match files w !! p with
    | Some content => (Return content, w)
    | None => (Raise (raise_of FileNotFoundError p), w)
    end.

(** [shutil.copy2(src, dst)]: the destination gets the text of the source,
    unless the file system refuses the copy. *)
Definition copy2 (src dst : string) : M unit :=
  fun w =>
    match files w !! src with
    | Some content =>
        if String.eqb src dst
        then (Raise (raise_of OSError "are the same file"), w)
        else
          match copy_fault w src dst with
          | Some (Some partial, exc) =>
              (Raise exc, set_files w (<[dst := partial]> (files w)))
          | Some (None, exc) => (Raise exc, w)
          | None => (Return tt, set_files w (<[dst := content]> (files w)))
          end
    | None => (Raise (raise_of FileNotFoundError src), w)
    end.

(** [Path(p).unlink()]: the file is removed, unless the file system
    refuses. *)
Definition unlink (p : string) : M unit :=
  fun w =>
    match files w !! p with
    | Some _ =>
        match unlink_fault w p with
        | Some exc => (Raise exc, w)
        | None => (Return tt, set_files w (delete p (files w)))
        end
    | None => (Raise (raise_of FileNotFoundError p), w)
    end.

(** ** The analysis client and the rewrite of the report *)

(** [session.config.option.xmlpath], [None] when the attribute is missing. *)
Record session := Session { xmlpath : option string }.

(** [not s] for the result of [os.environ.get] or of [getattr]. *)
Definition unset (s : option string) : bool :=
  match s with
  | Some s => String.eqb s ""
  | None => true
  end.

(** [nodeid_to_classname_and_name(test_name)] on a decoded value: only a
    str has [split]. *)
Definition translate (test_name : value) : outcome (string * string) :=
  match test_name with
  | VStr nodeid => Return (nodeid_to_classname_and_name nodeid)
  | _ => Raise (raise_of AttributeError "object has no attribute 'split'")
  end.

(** The loop that builds [analysis_map] from the entries of the response. *)
Fixpoint build_analysis_map (failures : list value)
    (analysis_map : gmap (string * string) value)
  : outcome (gmap (string * string) value) :=
  match failures with
  | [] => Return analysis_map
  | failure :: rest =>
      let* test_name := get failure "test_name" (VStr "") in
      let* analysis := get failure "analysis" (VDict []) in
      let* analysis_map :=
        if truthy test_name && truthy analysis then
          let* key := translate test_name in
          Return (<[key := analysis]> analysis_map)
        else Return analysis_map in
      build_analysis_map rest analysis_map
  end.

Section Pipeline.

(** The builtins and libraries the pipeline calls: [str] of a container,
    [int] of a str, [requests.post], [ET.parse] on the content of the
    file, and [tree.write], which gives the text written, or fails with
    an exception having left a text in the file ([None]: the file is as
    it was). *)
Variable container_str : value -> string.
Variable py_int : string -> outcome Z.
Variable requests_post : request -> outcome response.
Variable et_parse : string -> outcome element.
Variable et_write : element -> string + (option string * exn).

(** The call of [requests.post]. The call is recorded with its arguments,
    whatever the library then does with them: whether it puts a request on
    the wire (it raises before that for arguments it rejects), or more
    than one (it follows redirects), is not decided by these modules. *)
Definition post (r : request) : M response :=
  fun w => (requests_post r, add_post w r).

(** [tree.write(str(xml_path), ...)] *)
Definition write (xml_path : string) (tree : element) : M unit :=
  fun w =>
    match et_write tree with
    | inl content => (Return tt, set_files w (<[xml_path := content]> (files w)))
    | inr (Some partial, e) =>
        (Raise e, set_files w (<[xml_path := partial]> (files w)))
    | inr (None, e) => (Raise e, w)
    end.

(** The three statements of the first [try] block. *)
Definition exchange (server_url ai_provider ai_model : string)
    (collected_failures : list failure) : M value :=
  fun w =>
    (let! seconds :=
       lift (py_int (from_option id "600" (environ w !! "JJI_TIMEOUT"))) in
     let! response :=
       post (Request (PyStr.rstrip_slash server_url +:+ "/analyze-failures")
               collected_failures ai_provider ai_model seconds) in
     lift (raise_for_status response) ;;;
     lift (json response)) w.

(** The handler [except requests.RequestException as exc], up to its
    [return]. *)
Definition request_failed (exc : exn) : M unit :=
  let error_detail :=
    match exc_response exc with
    | Some body => " Response: " +:+ body
    | None => ""
    end in
  error ("Server request failed: " +:+ exc_str exc +:+ error_detail).

(** From the backup on: the last statements of [enrich_junit_xml]. *)
Definition rewrite_report (xml_path : string)
    (analysis_map : gmap (string * string) value) : M unit :=
  let! backup_path := lift (Path.with_suffix xml_path ".xml.bak") in
  copy2 xml_path backup_path ;;;
  try_except
    (let! content := read_file xml_path in
     let! tree := lift (et_parse content) in
     let! tree := lift (enrich_tree container_str analysis_map tree) in
     write xml_path tree ;;;
     unlink backup_path)
    (fun exc =>
       copy2 backup_path xml_path ;;;
       unlink backup_path ;;;
       throw exc).

(** From the response on: the map, then the rewrite. *)
Definition apply_result (xml_path : string) (result : value) : M unit :=
  let! failures := lift (get result "failures" (VList [])) in
  let! entries := lift (iterate failures) in
  let! analysis_map := lift (build_analysis_map entries ∅) in
  if bool_decide (analysis_map = ∅) then ret tt
  else rewrite_report xml_path analysis_map.

Definition enrich_junit_xml (session : session) (collected_failures : list failure)
  : M unit :=
  fun w =>
    if negb (requests w) then (Return tt, w) else
    let xml_path := xmlpath session in
    if unset xml_path
       || negb (path_exists (Path.normal (from_option id "" xml_path)) w)
       || bool_decide (collected_failures = [])
    then (Return tt, w) else
    let xml_path := Path.normal (from_option id "" xml_path) in
    let server_url := environ w !! "JJI_SERVER_URL" in
    if unset server_url
    then warning "JJI_SERVER_URL not set, skipping AI analysis enrichment" w else
    let server_url := from_option id "" server_url in
    let ai_provider := environ w !! "JJI_AI_PROVIDER" in
    let ai_model := environ w !! "JJI_AI_MODEL" in
    if unset ai_provider || unset ai_model
    then warning
           "JJI_AI_PROVIDER and JJI_AI_MODEL must be set, skipping AI analysis enrichment"
           w else
    let ai_provider := from_option id "" ai_provider in
    let ai_model := from_option id "" ai_model in
    match exchange server_url ai_provider ai_model collected_failures w with
    | (Raise exc, w1) =>
        if is_RequestException (exc_type exc) then request_failed exc w1
        else (Raise exc, w1)
    | (Return result, w1) => apply_result xml_path result w1
    end.

(** ** The hooks *)

(** [call.excinfo], by what [str(excinfo.value)] and
    [str(excinfo.getrepr())] do. *)
Record excinfo := ExcInfo {
  value_str : outcome string;
  getrepr_str : outcome string
}.

Record call_info := CallInfo {
  call_excinfo : option excinfo;
  call_duration : pyfloat;
  call_when : phase
}.

(** [pytest_sessionstart]: the module-level list is cleared. *)
Definition pytest_sessionstart (collected : list failure) : list failure := [].

(** [pytest_runtest_makereport]: the result is the module-level list
    after the call. *)
Definition pytest_runtest_makereport (nodeid : string) (c : call_info)
    (collected : list failure) : M (list failure) :=
  try_except
    (match call_excinfo c with
     | Some info =>
         let! message := lift (value_str info) in
         let! trace := lift (getrepr_str info) in
         ret (collected ++
                [Failure nodeid message trace (call_duration c) "FAILED" (call_when c)])
     | None => ret collected
     end)
    (fun exc =>
       warning ("Failed to collect failure data: " +:+ exc_str exc) ;;;
       ret collected).

(** [pytest_sessionfinish] *)
Definition pytest_sessionfinish (session : session) (collected : list failure)
  : M unit :=
  try_except
    (enrich_junit_xml session collected)
    (fun exc =>
       error ("Failed to enrich JUnit XML, original preserved: " +:+ exc_str exc)).

End Pipeline.

(** ** What the properties below speak of *)

(** The derived group of the specification, in its own words: the file
    path with each ["/"] replaced by ["."], which is a text of the same
    length with, at each place, the character of the path or a dot for a
    slash; and without the suffix [.py] when that text ends with it. *)
Definition dot_for_slash (c : ascii) : ascii :=
  if Ascii.eqb c "/"%char then "."%char else c.

Definition derived_group (path group : string) : Prop :=
  exists dotted,
    String.length dotted = String.length path
    /\ (forall i, String.get i dotted = option_map dot_for_slash (String.get i path))
    /\ (dotted = group +:+ ".py"
        \/ (group = dotted /\ forall front, dotted <> front +:+ ".py")).

(** An element with more children at the end. *)
Definition extend (e : element) (more : list element) : element :=
  set_children e (children e ++ more).

(** The children of the first [properties] child of a testcase. *)
Definition properties_children (testcase : element) : list element :=
  from_option children [] (find "properties" testcase).

(** The text of the first [system-out] child of a testcase. *)
Definition system_out_text (testcase : element) : string :=
  match find "system-out" testcase with
  | Some system_out => from_option id "" (text system_out)
  | None => ""
  end.

(** The number of [property] elements with the name in a list. *)
Definition count_named (name : string) (props : list element) : nat :=
  length (filter (fun p => attr p "name" "" = name) props).

(** The [property] elements one call of [add_property] makes. *)
Definition property_for (container_str : value -> string) (name : string) (v : value)
  : list element :=
  if truthy v then [property name (py_str container_str v)] else [].

(** The [property] elements one injection of an analysis makes. *)
Definition injected (container_str : value -> string) (analysis : value)
  : outcome (list element) :=
  let* properties := inject_properties container_str (new_element "properties") analysis in
  Return (children properties).

(** A [property] element without children. *)
Definition property_leaf (e : element) : Prop :=
  tag e = "property" /\ children e = [].

(** The levels the walk may add under an element. *)
Definition headroom (e : element) : nat :=
  if String.eqb (tag e) "testcase" then 2 else 0.

(** The text of a [system-out] after an injection of [new_text]. *)
Definition appended_text (existing new_text : string) : string :=
  if String.eqb new_text "" then existing
  else if String.eqb existing "" then new_text
       else existing +:+ delimiter +:+ new_text.

(** [list(e.iter())]: the element and its descendants, in document order. *)
Fixpoint iter (e : element) : list element :=
  match e with
  | Element _ _ _ cs _ => e :: flat_map iter cs
  end.

(** The first testcase of a document with the two attributes. *)
Definition testcase_at (classname name : string) (root : element) : option element :=
  List.find
    (fun e => String.eqb (tag e) "testcase"
              && String.eqb (attr e "classname" "") classname
              && String.eqb (attr e "name" "") name)
    (iter root).


(** The three steps between the backup and its removal, on the text of the
    report: the text that [tree.write] writes, or the failure of the first
    step that fails, with the text it leaves in the report ([None]: the
    report is as it was). *)
Definition rewritten (container_str : value -> string)
    (et_parse : string -> outcome element)
    (et_write : element -> string + (option string * exn))
    (analysis_map : gmap (string * string) value) (original : string)
  : string + (option string * exn) :=
  match et_parse original with
  | Raise exc => inr (None, exc)
  | Return tree =>
      match enrich_tree container_str analysis_map tree with
      | Raise exc => inr (None, exc)
      | Return tree' => et_write tree'
      end
  end.

(** The text of the report after the three steps. *)
Definition left_by (steps : string + (option string * exn)) (original : string)
  : string :=
  match steps with
  | inl content => content
  | inr (Some partial, _) => partial
  | inr (None, _) => original
  end.



(** A statement that neither logs nor calls [requests.post]. *)
Definition quiet {A : Type} (m : M A) : Prop :=
  forall w, logged (snd (m w)) = logged w /\ posted (snd (m w)) = posted w.

(** All the preconditions of the request hold; [xml_path] is the path of
    the report in normal form. *)
Definition ready (session : session) (failures : list failure) (w : world)
    (xml_path server_url ai_provider ai_model : string) : Prop :=
  requests w = true
  /\ (exists raw, xmlpath session = Some raw /\ raw <> "" /\ Path.normal raw = xml_path)
  /\ is_Some (files w !! xml_path)
  /\ failures <> []
  /\ environ w !! "JJI_SERVER_URL" = Some server_url /\ server_url <> ""
  /\ environ w !! "JJI_AI_PROVIDER" = Some ai_provider /\ ai_provider <> ""
  /\ environ w !! "JJI_AI_MODEL" = Some ai_model /\ ai_model <> "".

(** The record of the handler of [requests.RequestException]. *)
Definition request_error (exc : exn) : log_record :=
  Log ERROR
    ("Server request failed: " +:+ exc_str exc +:+
     match exc_response exc with
     | Some body => " Response: " +:+ body
     | None => ""
     end).

(** An entry that is an object without a test name or without an analysis
    (missing, or empty). *)
Definition incomplete (entry : value) : bool :=
  match entry with
  | VDict items =>
      negb (truthy (from_option id (VStr "") (assoc "test_name" items))
            && truthy (from_option id (VDict []) (assoc "analysis" items)))
  | _ => false
  end.

(** An entry that is an object with a test name that is a non-empty str,
    and a non-empty analysis: the identifier and the analysis. *)
Definition complete (entry : value) : option (string * value) :=
  match entry with
  | VDict items =>
      match assoc "test_name" items, assoc "analysis" items with
      | Some (VStr nodeid), Some analysis =>
          if negb (String.eqb nodeid "") && truthy analysis
          then Some (nodeid, analysis) else None
      | _, _ => None
      end
  | _ => None
  end.

(** The index the specification describes: the complete entries, each under
    the translation of its identifier, a later entry replacing an earlier
    one with the same key; the other entries are skipped. *)
Fixpoint index_of (entries : list value) (index : gmap (string * string) value)
  : gmap (string * string) value :=
  match entries with
  | [] => index
  | entry :: rest =>
      match complete entry with
      | Some (nodeid, analysis) =>
          index_of rest (<[nodeid_to_classname_and_name nodeid := analysis]> index)
      | None => index_of rest index
      end
  end.

(** The elements an injection makes are of these three kinds. *)
Definition injected_tag (e : element) : Prop :=
  tag e = "properties" \/ tag e = "property" \/ tag e = "system-out".

(** [kept e e']: [e'] has all of [e], and no more than injections add. The
    tag, the attributes and the tail are the same; the text is the same,
    or, for a [system-out], the old text is the beginning of the new one;
    every child of [e] is kept in the child of [e'] at the same place; the
    children [e'] has after them are [properties], [property] or
    [system-out] elements. *)
Inductive kept : element -> element -> Prop :=
| Kept (name : string) (attrs : list (string * string)) (t t' : option string)
    (cs cs' more : list element) (tl : option string) :
    (if String.eqb name "system-out"
     then PyStr.starts_with (from_option id "" t) (from_option id "" t')
     else t = t') ->
    Forall2 kept cs cs' ->
    Forall injected_tag more ->
    kept (Element name attrs t cs tl) (Element name attrs t' (cs' ++ more) tl).

(** ** A sample run: the scenario of the specification *)

Definition sample_testcase : element :=
  Element "testcase"
    [("classname", "tests.test_foo.TestClass"); ("name", "test_bar"); ("time", "0.001")]
    None
    [Element "failure" [("message", "ImportError")] (Some "Traceback") [] None]
    None.

Definition sample_document : element :=
  Element "testsuites" [] None
    [Element "testsuite" [("name", "pytest"); ("failures", "1"); ("tests", "2")] None
       [sample_testcase;
        Element "testcase"
          [("classname", "tests.test_foo.TestClass"); ("name", "test_ok")] None [] None]
       None]
    None.

Definition sample_analysis : value :=
  VDict [("classification", VStr "CODE ISSUE"); ("details", VStr "missing import")].

Definition sample_response : value :=
  VDict [("failures",
          VList [VDict [("test_name", VStr "tests/test_foo.py::TestClass::test_bar");
                        ("analysis", sample_analysis)]])].

Definition sample_index : gmap (string * string) value :=
  {[ ("tests.test_foo.TestClass", "test_bar") := sample_analysis ]}.

(** A [str] for containers, for runs that meet none. *)
Definition no_containers (v : value) : string := "".

(** The result of a call that returns, [default] otherwise. *)
Definition returned {A : Type} (default : A) (o : outcome A) : A :=
  match o with
  | Return a => a
  | Raise _ => default
  end.

Definition sample_once : element :=
  returned sample_testcase (inject_analysis no_containers sample_testcase sample_analysis).

Definition sample_twice : element :=
  returned sample_testcase (inject_analysis no_containers sample_once sample_analysis).

Definition sample_enriched : element :=
  returned sample_document (enrich_tree no_containers sample_index sample_document).

(** [int(s)] on the texts made of an optional sign and ASCII digits. This
    instance refuses every other text; Python accepts some of them (blanks
    around the number, underscores between digits). *)
Definition digit_of (c : ascii) : option Z :=
  let n := nat_of_ascii c in
  if (48 <=? n)%nat && (n <=? 57)%nat then Some (Z.of_nat (n - 48)) else None.

Fixpoint digits_value (acc : Z) (s : string) : option Z :=
  match s with
  | EmptyString => Some acc
  | String c r =>
      match digit_of c with
      | Some d => digits_value (10 * acc + d) r
      | None => None
      end
  end.

Definition ascii_int (s : string) : outcome Z :=
  let invalid :=
    Raise (raise_of ValueError ("invalid literal for int() with base 10: " +:+ s)) in
  let unsigned (sign : Z) (r : string) :=
    match r with
    | EmptyString => invalid
    | _ => match digits_value 0 r with
           | Some n => Return (sign * n)%Z
           | None => invalid
           end
    end in
  match s with
  | EmptyString => invalid
  | String c r =>
      if Ascii.eqb c "-"%char then unsigned (-1)%Z r
      else if Ascii.eqb c "+"%char then unsigned 1%Z r
      else unsigned 1%Z s
  end.

(** A plain text for a tree, without escapes: enough for a sample. *)
Fixpoint to_text (e : element) : string :=
  match e with
  | Element name attrs t cs tl =>
      "<" +:+ name
      +:+ String.concat ""
            (map (fun kv => " " +:+ fst kv +:+ "='" +:+ snd kv +:+ "'") attrs)
      +:+ ">" +:+ from_option id "" t
      +:+ String.concat "" (map to_text cs)
      +:+ "</" +:+ name +:+ ">" +:+ from_option id "" tl
  end.

Definition sample_text : string := to_text sample_document.

Definition sample_parse (content : string) : outcome element :=
  if String.eqb content sample_text then Return sample_document
  else Raise (raise_of ParseError "syntax error").

Definition sample_write (tree : element) : string + (option string * exn) :=
  inl (to_text tree).

Definition disk_full : exn := Exn OSError "[Errno 28] No space left on device" None.

(** A write that fails with the file cut short. *)
Definition failing_write (tree : element) : string + (option string * exn) :=
  inr (Some "<testsuites><testsuite name='pytest'", disk_full).

Definition sample_post (r : request) : outcome response :=
  Return (Response (Return tt) (Return sample_response)).

Definition connection_refused : exn := Exn ConnectionError "Connection refused" None.

Definition refused_post (r : request) : outcome response := Raise connection_refused.

Definition sample_environ : gmap string string :=
  {[ "JJI_SERVER_URL" := "http://jji.example:8000/";
     "JJI_AI_PROVIDER" := "claude";
     "JJI_AI_MODEL" := "a-model" ]}.

(** A file system that refuses nothing. *)
Definition no_copy_fault (src dst : string) : option (option string * exn) := None.

Definition no_unlink_fault (p : string) : option exn := None.

Definition sample_world : world :=
  World true sample_environ {[ "report.xml" := sample_text ]} [] []
    no_copy_fault no_unlink_fault.

Definition sample_session : session := Session (Some "report.xml").

Definition sample_failure : failure :=
  Failure "tests/test_foo.py::TestClass::test_bar" "No module named 'foo'"
    "Traceback (most recent call last)" (Float true "0.001") "FAILED" call.

Definition sample_request : request :=
  Request "http://jji.example:8000/analyze-failures" [sample_failure]
    "claude" "a-model" 600.

(** The sample with a timeout that is no integer. *)
Definition bad_timeout_world : world :=
  World true (<[ "JJI_TIMEOUT" := "ten minutes" ]> sample_environ)
    {[ "report.xml" := sample_text ]} [] [] no_copy_fault no_unlink_fault.

(** A report that cannot be written: [tree.write] fails when it opens the
    file, and so does a copy to it. *)
Definition permission_denied : exn :=
  Exn PermissionError "[Errno 13] Permission denied: 'report.xml'" None.

Definition refused_write (tree : element) : string + (option string * exn) :=
  inr (None, permission_denied).

Definition read_only_copy_fault (src dst : string) : option (option string * exn) :=
  if String.eqb dst "report.xml" then Some (None, permission_denied) else None.

Definition read_only_world : world :=
  World true sample_environ {[ "report.xml" := sample_text ]} [] []
    read_only_copy_fault no_unlink_fault.

(** The sample where [requests] is missing. *)
Definition no_requests_world : world :=
  World false sample_environ {[ "report.xml" := sample_text ]} [] []
    no_copy_fault no_unlink_fault.

Definition sample_entry : value :=
  VDict [("test_name", VStr "tests/test_foo.py::TestClass::test_bar");
         ("analysis", sample_analysis)].

(** ** What the further properties speak of *)

(** The text ends with ["/"]. *)
Fixpoint ends_with_slash (s : string) : bool :=
  match s with
  | EmptyString => false
  | String c r =>
      match r with
      | EmptyString => Ascii.eqb c "/"%char
      | _ => ends_with_slash r
      end
  end.

(** The text is made of ["/"] only. *)
Fixpoint only_slashes (s : string) : bool :=
  match s with
  | EmptyString => true
  | String c r => Ascii.eqb c "/"%char && only_slashes r
  end.

(** pathlib's stem and suffix of a name, in its own words: the suffix is
    what begins at the last dot of the name, when that dot is neither the
    first nor the last character of the name, and is empty otherwise; the
    stem is the name without it. *)
Definition last_suffix (name stem suffix : string) : Prop :=
  name = stem +:+ suffix
  /\ ((exists ext,
         suffix = String "."%char ext /\ ext <> EmptyString
         /\ Path.has_char "."%char ext = false /\ stem <> EmptyString)
      \/ (suffix = EmptyString
          /\ forall front ext,
               name = front +:+ String "."%char ext ->
               Path.has_char "."%char ext = false ->
               front = EmptyString \/ ext = EmptyString)).

(** [d.get(key, default)] on the items of a dict. *)
Definition field (items : list (string * value)) (key : string) (default : value)
  : value :=
  from_option id default (assoc key items).

(** [v and isinstance(v, dict)] *)
Definition filled_dict (v : value) : bool := truthy v && is_dict v.

(** An analysis without classification, details, code fix and bug report. *)
Definition says_nothing (items : list (string * value)) : bool :=
  negb (truthy (field items "classification" (VStr "")))
  && negb (truthy (field items "details" (VStr "")))
  && negb (filled_dict (field items "code_fix" VNone))
  && negb (filled_dict (field items "product_bug_report" VNone)).

Definition is_str (v : value) : bool :=
  match v with VStr _ => true | _ => false end.

(** What [", ".join] accepts: a list of str, a str, a dict. *)
Definition joinable (v : value) : bool :=
  match v with
  | VList items => forallb is_str items
  | VStr _ | VDict _ => true
  | _ => false
  end.

(** An analysis the injection accepts: a dict whose [affected_tests] is
    empty or can be joined. *)
Definition injectable (analysis : value) : bool :=
  match analysis with
  | VDict items =>
      negb (truthy (field items "affected_tests" (VList [])))
      || joinable (field items "affected_tests" (VList []))
  | _ => false
  end.

(** The call returns. *)
Definition returns {A : Type} (o : outcome A) : bool :=
  match o with
  | Return _ => true
  | Raise _ => false
  end.

(** The names of the properties, in the order of the calls. *)
Definition ai_names : list string :=
  ["ai_classification"; "ai_details"; "ai_affected_tests";
   "ai_code_fix_file"; "ai_code_fix_line"; "ai_code_fix_change";
   "ai_bug_title"; "ai_bug_severity"; "ai_bug_component"; "ai_bug_description"].

(** The [name] attributes of a list of elements. *)
Definition names_of (props : list element) : list string :=
  (fun p => attr p "name" "") <$> props.

(** The properties of the code fix and of the bug report. *)
Definition code_fix_properties (container_str : value -> string) (code_fix : value)
  : list element :=
  match code_fix with
  | VDict (item :: more) =>
      property_for container_str "ai_code_fix_file" (field (item :: more) "file" (VStr ""))
      ++ property_for container_str "ai_code_fix_line"
           (field (item :: more) "line" (VStr ""))
      ++ property_for container_str "ai_code_fix_change"
           (field (item :: more) "change" (VStr ""))
  | _ => []
  end.

Definition bug_report_properties (container_str : value -> string) (bug_report : value)
  : list element :=
  match bug_report with
  | VDict (item :: more) =>
      property_for container_str "ai_bug_title" (field (item :: more) "title" (VStr ""))
      ++ property_for container_str "ai_bug_severity"
           (field (item :: more) "severity" (VStr ""))
      ++ property_for container_str "ai_bug_component"
           (field (item :: more) "component" (VStr ""))
      ++ property_for container_str "ai_bug_description"
           (field (item :: more) "description" (VStr ""))
  | _ => []
  end.

(** The property of the affected tests: none without affected tests, the
    joined names otherwise, when they can be joined. *)
Definition affected_properties (container_str : value -> string) (affected : value)
  : outcome (list element) :=
  if truthy affected then
    let* joined := join_value ", " affected in
    Return (property_for container_str "ai_affected_tests" (VStr joined))
  else Return [].

(** The key of a testcase in the index. *)
Definition key_of (testcase : element) : string * string :=
  (attr testcase "classname" "", attr testcase "name" "").

(** The report of a session: the path [enrich_junit_xml] works on, when the
    session names one. *)
Definition report_of (session : session) : option string :=
  match xmlpath session with
  | Some raw => if String.eqb raw "" then None else Some (Path.normal raw)
  | None => None
  end.

(** A path that is neither the report nor the backup path of the report. *)
Definition beside (report : option string) (p : string) : Prop :=
  forall xml_path,
    report = Some xml_path ->
    p <> xml_path /\ Path.with_suffix xml_path ".xml.bak" <> Return p.

(** The text of the report is not lost: the report holds it, or the backup
    path of the report holds it, or the report holds the text that
    [tree.write] wrote in full for the tree parsed from it and enriched
    with some index. *)
Definition not_lost (container_str : value -> string)
    (et_parse : string -> outcome element)
    (et_write : element -> string + (option string * exn))
    (xml_path original : string) (after : gmap string string) : Prop :=
  after !! xml_path = Some original
  \/ (exists backup_path,
        Path.with_suffix xml_path ".xml.bak" = Return backup_path
        /\ after !! backup_path = Some original)
  \/ (exists analysis_map content,
        rewritten container_str et_parse et_write analysis_map original = inl content
        /\ after !! xml_path = Some content).

(** A call that logs at most one record. *)
Definition logs_at_most_one (w w' : world) : Prop :=
  logged w' = logged w \/ exists r, logged w' = logged w ++ [r].

(** ** The storage of results

    [src/jenkins_job_insight/storage.py]: the table [results] of the SQLite
    database, by its primary key. Each function opens a connection, runs
    one statement and commits; the calls are taken one after the other. *)

Module Storage.

Inductive log_level := DEBUG | INFO | WARN.

(** A row of [results] without its key: the columns [jenkins_url],
    [status], [result_json] ([None] is NULL) and [created_at]. *)
Record row := Row {
  jenkins_url : string;
  status : string;
  result_json : option string;
  created_at : string
}.

(** The database file: the table when it has been created, by [job_id];
    and the records of the logger. *)
Record db := Db {
  table : option (gmap string row);
  log : list (log_level * string)
}.

(** A statement returns or fails with [sqlite3.OperationalError]. *)
Inductive answer (A : Type) :=
| Done (a : A)
| OperationalError (msg : string)
| DecodeError (e : exn).
Arguments Done {A} a.
Arguments OperationalError {A} msg.
Arguments DecodeError {A} e.

Definition no_table {A : Type} : answer A := OperationalError "no such table: results".

Definition say (l : log_level) (msg : string) (d : db) : db :=
  Db (table d) (log d ++ [(l, msg)]).

(** What [get_result] returns for a row. *)
Record view := View {
  view_job_id : string;
  view_jenkins_url : string;
  view_status : string;
  view_result : option value;
  view_created_at : string
}.

Section Functions.

(** [json.dumps] and [json.loads], and the text of [DB_PATH]. *)
Variable json_dumps : value -> string.
Variable json_loads : string -> outcome value.
Variable db_path : string.

(** [CREATE TABLE IF NOT EXISTS results (...)] *)
Definition init_db (d : db) : answer unit * db :=
  let d := say INFO ("Initializing database at " +:+ db_path) d in
  (Done tt, Db (Some (from_option id ∅ (table d))) (log d)).

(** [INSERT OR REPLACE INTO results (job_id, jenkins_url, status,
    result_json) VALUES (?, ?, ?, ?)]: a row with the key is replaced by
    the new one, whose [created_at] is the default, [CURRENT_TIMESTAMP]. *)
Definition save_result (now : string) (job_id url st : string) (result : option value)
    (d : db) : answer unit * db :=
  let d :=
    say DEBUG ("Saving result for job_id: " +:+ job_id +:+ " (status: " +:+ st +:+ ")") d in
  match table d with
  | Some rows =>
      (Done tt,
       Db (Some (<[job_id := Row url st (json_dumps <$> result) now]> rows)) (log d))
  | None => (no_table, d)
  end.

(** [UPDATE results SET status = ?, result_json = ? WHERE job_id = ?], or
    without [result_json] when [result] is [None]; a warning when no row
    has the key. *)
Definition update_status (job_id st : string) (result : option value) (d : db)
  : answer unit * db :=
  let d :=
    say DEBUG ("Updating status for job_id: " +:+ job_id +:+ " (status: " +:+ st +:+ ")") d in
  match table d with
  | Some rows =>
      match rows !! job_id with
      | Some r =>
          let r' :=
            match result with
            | Some v => Row (jenkins_url r) st (Some (json_dumps v)) (created_at r)
            | None => Row (jenkins_url r) st (result_json r) (created_at r)
            end in
          (Done tt, Db (Some (<[job_id := r']> rows)) (log d))
      | None =>
          (Done tt, say WARN ("update_status: no row found for job_id=" +:+ job_id) d)
      end
  | None => (no_table, d)
  end.

(** [SELECT * FROM results WHERE job_id = ?], and the dict made of the
    row; the result is decoded when [result_json] is neither NULL nor
    empty. *)
Definition get_result (job_id : string) (d : db) : answer (option view) :=
  match table d with
  | Some rows =>
      match rows !! job_id with
      | Some r =>
          match result_json r with
          | Some text =>
              if String.eqb text "" then
                Done (Some (View job_id (jenkins_url r) (status r) None (created_at r)))
              else
                match json_loads text with
                | Return v =>
                    Done (Some (View job_id (jenkins_url r) (status r) (Some v)
                                  (created_at r)))
                | Raise e => DecodeError e
                end
          | None =>
              Done (Some (View job_id (jenkins_url r) (status r) None (created_at r)))
          end
      | None => Done None
      end
  | None => no_table
  end.

End Functions.

End Storage.

(** * Properties *)

(** ** Strings *)

Section StringFacts.

Import PyStr.

(** Induction following the scan of [split] and [count], which looks at
    two characters at a time. *)
Lemma string_ind2 (P : string -> Prop) :
  P EmptyString ->
  (forall c, P (String c EmptyString)) ->
  (forall c c' r, P r -> P (String c' r) -> P (String c (String c' r))) ->
  forall s, P s.
Proof.
  intros H0 H1 H2 s.
  assert (H : P s /\ forall c, P (String c s)); [|apply H].
  induction s as [|c' r [IHr IHc]]; split; auto.
Qed.

Lemma str_app_empty_r (s : string) : s +:+ "" = s.
Proof. induction s; simpl; congruence. Qed.

Lemma str_app_assoc (a b c : string) : (a +:+ b) +:+ c = a +:+ b +:+ c.
Proof. induction a; simpl; congruence. Qed.

Lemma split_step (c c' : ascii) (r : string) :
  split (String c (String c' r))
  = if Ascii.eqb c colon && Ascii.eqb c' colon
    then EmptyString :: split r
    else push c (split (String c' r)).
Proof. reflexivity. Qed.

Lemma count_step (c c' : ascii) (r : string) :
  count (String c (String c' r))
  = if Ascii.eqb c colon && Ascii.eqb c' colon
    then S (count r)
    else count (String c' r).
Proof. reflexivity. Qed.

Lemma split_nonempty (s : string) : split s <> [].
Proof.
  induction s as [|c|c c' r IHr IHc] using string_ind2; try discriminate.
  rewrite split_step. destruct (_ && _); [discriminate|].
  destruct (split (String c' r)); [contradiction|discriminate].
Qed.

Lemma join_push (c : ascii) (segs : list string) :
  segs <> [] -> join "::" (push c segs) = String c (join "::" segs).
Proof. destruct segs as [|p [|q rest]]; [contradiction| |]; reflexivity. Qed.

Lemma length_push (c : ascii) (segs : list string) :
  segs <> [] -> length (push c segs) = length segs.
Proof. destruct segs; [contradiction|reflexivity]. Qed.

(** Joining the segments with the separator gives the text back. *)
Lemma join_split (s : string) : join "::" (split s) = s.
Proof.
  induction s as [|c|c c' r IHr IHc] using string_ind2; try reflexivity.
  rewrite split_step. destruct (Ascii.eqb c colon && Ascii.eqb c' colon) eqn:E.
  - apply andb_prop in E as [->%Ascii.eqb_eq ->%Ascii.eqb_eq].
    pose proof (split_nonempty r) as Hne.
    destruct (split r) as [|p rest] eqn:Er; [contradiction|].
    change (join "::" ("" :: p :: rest)) with ("::" +:+ join "::" (p :: rest)).
    rewrite IHr. reflexivity.
  - rewrite join_push by apply split_nonempty. now rewrite IHc.
Qed.

(** One more segment than separators. *)
Lemma length_split (s : string) : length (split s) = S (count s).
Proof.
  induction s as [|c|c c' r IHr IHc] using string_ind2; try reflexivity.
  rewrite split_step, count_step.
  destruct (Ascii.eqb c colon && Ascii.eqb c' colon).
  - simpl. now rewrite IHr.
  - rewrite length_push by apply split_nonempty. exact IHc.
Qed.

Lemma count_push_last (c : ascii) (r : string) :
  (forall c' r', r = String c' r' -> Ascii.eqb c colon && Ascii.eqb c' colon = false) ->
  count (String c r) = count r.
Proof.
  destruct r as [|c' r']; [reflexivity|]. intros H.
  rewrite count_step, (H c' r') by reflexivity. reflexivity.
Qed.

(** The segments of [split s] hold no separator, and each separator is
    the leftmost one. *)
Lemma split_segments (s : string) : segments (split s).
Proof.
  induction s as [|c|c c' r IHr IHc] using string_ind2; try reflexivity.
  rewrite split_step. destruct (Ascii.eqb c colon && Ascii.eqb c' colon) eqn:E.
  - pose proof (split_nonempty r).
    destruct (split r) as [|p rest]; [contradiction|]. split; [reflexivity|exact IHr].
  - pose proof (join_split (String c' r)) as J.
    destruct (split (String c' r)) as [|p [|q rest]] eqn:Es.
    + now apply split_nonempty in Es.
    + simpl in J. subst p. cbn [push segments] in *.
      rewrite count_step, E. exact IHc.
    + cbn [push segments] in *. destruct IHc as [Hp Hrest]. split; [|exact Hrest].
      change (String c p +:+ ":") with (String c (p +:+ ":")).
      rewrite count_push_last; [exact Hp|].
      intros a r' Hr'. destruct p as [|b p'].
      * change (join "::" ("" :: q :: rest)) with ("::" +:+ join "::" (q :: rest)) in J.
        simpl in J, Hr'. injection J as <- _. injection Hr' as <- _. exact E.
      * change (join "::" (String b p' :: q :: rest))
          with (String b (p' +:+ "::" +:+ join "::" (q :: rest))) in J.
        simpl in Hr'. injection J as <- _. injection Hr' as <- _. exact E.
Qed.

Lemma str_length_app (a b : string) :
  String.length (a +:+ b) = String.length a + String.length b.
Proof. induction a; simpl; congruence. Qed.

(** [removesuffix] drops a suffix that is there... *)
Lemma removesuffix_app (suf p : string) :
  suf <> EmptyString -> removesuffix suf (p +:+ suf) = p.
Proof.
  intros Hsuf. induction p as [|c p IH].
  - destruct suf as [|c r]; [contradiction|]. simpl.
    now rewrite Ascii.eqb_refl, String.eqb_refl.
  - change (String c p +:+ suf) with (String c (p +:+ suf)).
    cbn [removesuffix]. destruct (String.eqb_spec (String c (p +:+ suf)) suf) as [Heq|_].
    + apply (f_equal String.length) in Heq. simpl in Heq. rewrite str_length_app in Heq. lia.
    + now rewrite IH.
Qed.

(** ... and leaves other texts as they are. *)
Lemma removesuffix_other (suf s : string) :
  (forall p, s <> p +:+ suf) -> removesuffix suf s = s.
Proof.
  induction s as [|c s IH]; [reflexivity|]. intros H. cbn [removesuffix].
  destruct (String.eqb_spec (String c s) suf) as [Heq|_].
  - exfalso. apply (H EmptyString). now rewrite Heq.
  - rewrite IH; [reflexivity|]. intros p ->. now apply (H (String c p)).
Qed.

End StringFacts.

(** ** The identifier translator *)

Section GroupFacts.

Import PyStr.

Lemma replace_slash_length (s : string) :
  String.length (replace_slash s) = String.length s.
Proof. induction s as [|c s IH]; simpl; congruence. Qed.

Lemma replace_slash_get (s : string) (i : nat) :
  String.get i (replace_slash s) = option_map dot_for_slash (String.get i s).
Proof.
  revert i. induction s as [|c s IH]; intros i; [reflexivity|].
  destruct i as [|i]; [reflexivity|]. simpl. apply IH.
Qed.

(** [removesuffix] cuts the suffix off a text that ends with it, and only
    then. *)
Lemma removesuffix_cases (suf s : string) :
  suf <> EmptyString ->
  s = removesuffix suf s +:+ suf
  \/ (removesuffix suf s = s /\ forall front, s <> front +:+ suf).
Proof.
  intros Hsuf. induction s as [|c s IH].
  - right. split; [reflexivity|]. intros front H.
    destruct front; [now symmetry in H|discriminate].
  - cbn [removesuffix]. destruct (String.eqb_spec (String c s) suf) as [Heq|Hne].
    + left. now rewrite Heq.
    + destruct IH as [IH|[IH Hno]].
      * left. simpl. now rewrite <- IH.
      * right. rewrite IH. split; [reflexivity|]. intros [|c' front] H.
        -- now apply Hne.
        -- injection H as _ H. now apply (Hno front).
Qed.

(** The module of the translator is the derived group of the
    specification. *)
Lemma module_of_derived (path : string) : derived_group path (module_of path).
Proof.
  exists (replace_slash path). split; [apply replace_slash_length|].
  split; [apply replace_slash_get|].
  unfold module_of. destruct (removesuffix_cases ".py" (replace_slash path)) as [H|[H Hno]];
    [discriminate|now left|right]. now rewrite H.
Qed.

Lemma str_app_inj_r (a b suf : string) : a +:+ suf = b +:+ suf -> a = b.
Proof.
  revert b. induction a as [|c a IH]; intros [|c' b] H; try reflexivity.
  - apply (f_equal String.length) in H. simpl in H. rewrite str_length_app in H. lia.
  - apply (f_equal String.length) in H. simpl in H. rewrite str_length_app in H. lia.
  - injection H as -> H. f_equal. now apply IH.
Qed.

(** The derived group is determined by the path. *)
Lemma derived_group_unique (path group group' : string) :
  derived_group path group -> derived_group path group' -> group = group'.
Proof.
  intros (d & _ & Hget & Hd) (d' & _ & Hget' & Hd').
  assert (d = d') as <-.
  { apply String.get_correct. intros i. now rewrite Hget, Hget'. }
  destruct Hd as [Hd|[-> Hno]], Hd' as [Hd'|[-> Hno']]; try reflexivity.
  - rewrite Hd in Hd'. now apply str_app_inj_r in Hd'.
  - now apply Hno' in Hd.
  - now apply Hno in Hd'.
Qed.

End GroupFacts.

(** C4. The translator is a total function of the identifier. With exactly
    one ["::"] in it, the identifier is [path::name] and the result is the
    derived group of the path, which is the path with ["/"] replaced by
    ["."] and a final [".py"] removed, and the name; with exactly two, it
    is [path::middle::name] and the result is that group followed by ["."]
    and the middle segment, and the name; with any other number (none, or
    three and more) the result is the empty group and the identifier
    itself. *)
Theorem nodeid_translation (nodeid : string) :
  (PyStr.count nodeid = 1 ->
   exists path name group,
     nodeid = path +:+ "::" +:+ name
     /\ PyStr.count (path +:+ ":") = 0 /\ PyStr.count name = 0
     /\ derived_group path group
     /\ nodeid_to_classname_and_name nodeid = (group, name))
  /\ (PyStr.count nodeid = 2 ->
      exists path middle name group,
        nodeid = path +:+ "::" +:+ middle +:+ "::" +:+ name
        /\ PyStr.count (path +:+ ":") = 0 /\ PyStr.count (middle +:+ ":") = 0
        /\ PyStr.count name = 0
        /\ derived_group path group
        /\ nodeid_to_classname_and_name nodeid = (group +:+ "." +:+ middle, name))
  /\ (PyStr.count nodeid <> 1 -> PyStr.count nodeid <> 2 ->
      nodeid_to_classname_and_name nodeid = (EmptyString, nodeid)).
Proof.
  pose proof (length_split nodeid) as Hlen.
  pose proof (join_split nodeid) as Hjoin.
  pose proof (split_segments nodeid) as Hseg.
  unfold nodeid_to_classname_and_name.
  destruct (PyStr.split nodeid) as [|p0 [|p1 [|p2 [|p3 rest]]]];
    simpl in Hlen; (repeat split); intros; try lia; try reflexivity.
  - exists p0, p1, (module_of p0). simpl in Hjoin, Hseg. destruct Hseg.
    repeat split; auto. apply module_of_derived.
  - exists p0, p1, p2, (module_of p0). simpl in Hjoin, Hseg.
    destruct Hseg as (? & ? & ?). repeat split; auto. apply module_of_derived.
Qed.

Lemma nodeid_translation_witness :
  PyStr.count "tests/test_foo.py::TestClass::test_bar" = 2
  /\ exists path middle name group,
       "tests/test_foo.py::TestClass::test_bar"
       = path +:+ "::" +:+ middle +:+ "::" +:+ name
       /\ PyStr.count (path +:+ ":") = 0 /\ PyStr.count (middle +:+ ":") = 0
       /\ PyStr.count name = 0
       /\ derived_group path group
       /\ nodeid_to_classname_and_name "tests/test_foo.py::TestClass::test_bar"
          = (group +:+ "." +:+ middle, name).
Proof.
  split; [reflexivity|].
  apply (nodeid_translation "tests/test_foo.py::TestClass::test_bar"). reflexivity.
Defined.

Example nodeid_doc1 :
  nodeid_to_classname_and_name "tests/test_foo.py::test_bar"
  = ("tests.test_foo", "test_bar").
Proof. reflexivity. Qed.

Example nodeid_doc2 :
  nodeid_to_classname_and_name "tests/test_foo.py::TestClass::test_bar"
  = ("tests.test_foo.TestClass", "test_bar").
Proof. reflexivity. Qed.

Example nodeid_doc3 :
  nodeid_to_classname_and_name "tests/sub/test_foo.py::TestClass::test_bar[param]"
  = ("tests.sub.test_foo.TestClass", "test_bar[param]").
Proof. reflexivity. Qed.

Example nodeid_overlap : PyStr.split "a:::b" = ["a"; ":b"].
Proof. reflexivity. Qed.

Example nodeid_fallback :
  nodeid_to_classname_and_name "test_bar" = ("", "test_bar")
  /\ nodeid_to_classname_and_name "a.py::B::C::d" = ("", "a.py::B::C::d").
Proof. split; reflexivity. Qed.

(** ** XML elements *)

Section ElementFacts.

Lemma element_ind_children (P : element -> Prop) :
  (forall name attrs t cs tl,
      Forall P cs -> P (Element name attrs t cs tl)) ->
  forall e, P e.
Proof.
  intros H. fix IH 1. intros [name attrs t cs tl]. apply H.
  induction cs as [|c cs IHcs]; constructor; [apply IH|exact IHcs].
Qed.

Lemma set_children_same (e : element) : set_children e (children e) = e.
Proof. now destruct e. Qed.

Lemma extend_nil (e : element) : extend e [] = e.
Proof. destruct e. unfold extend, set_children. simpl. now rewrite app_nil_r. Qed.

Lemma extend_extend (e : element) (l1 l2 : list element) :
  extend (extend e l1) l2 = extend e (l1 ++ l2).
Proof. unfold extend, set_children. simpl. now rewrite <- app_assoc. Qed.

Lemma children_extend (e : element) (l : list element) :
  children (extend e l) = children e ++ l.
Proof. reflexivity. Qed.

Lemma tag_extend (e : element) (l : list element) : tag (extend e l) = tag e.
Proof. reflexivity. Qed.

Lemma find_in_tag (name : string) (cs : list element) (c : element) :
  find_in name cs = Some c -> tag c = name /\ In c cs.
Proof.
  induction cs as [|d cs IH]; simpl; [discriminate|].
  destruct (String.eqb_spec (tag d) name) as [E|_].
  - intros [= ->]. auto.
  - intros H. destruct (IH H). auto.
Qed.

Lemma put_in_elem (name : string) (new : element) (cs : list element) (c : element) :
  In c (put_in name new cs) -> In c cs \/ c = new.
Proof.
  induction cs as [|d cs IH]; simpl.
  - intros [<-|[]]. now right.
  - destruct (String.eqb (tag d) name); simpl; intuition.
Qed.

(** After [put_child], [find] gives the element put. *)
Lemma find_in_put_in (name : string) (new : element) (cs : list element) :
  tag new = name -> find_in name (put_in name new cs) = Some new.
Proof.
  intros Hn. induction cs as [|d cs IH]; simpl.
  - now rewrite Hn, String.eqb_refl.
  - destruct (String.eqb (tag d) name) eqn:E; simpl.
    + now rewrite Hn, String.eqb_refl.
    + now rewrite E.
Qed.

(** [put_child] under one tag does not move what [find] gives for another. *)
Lemma find_in_put_in_other (name other : string) (new : element) (cs : list element) :
  tag new = name -> name <> other ->
  find_in other (put_in name new cs) = find_in other cs.
Proof.
  intros Hn Hne. induction cs as [|d cs IH]; simpl.
  - rewrite Hn. now destruct (String.eqb_spec name other).
  - destruct (String.eqb_spec (tag d) name) as [E|E]; simpl.
    + rewrite Hn, E. now destruct (String.eqb_spec name other).
    + now rewrite IH.
Qed.

Lemma find_in_app_other (other : string) (cs : list element) (c : element) :
  tag c <> other -> find_in other (cs ++ [c]) = find_in other cs.
Proof.
  intros Hne. induction cs as [|d cs IH]; simpl.
  - now destruct (String.eqb_spec (tag c) other).
  - now rewrite IH.
Qed.

End ElementFacts.

(** ** The report mutator *)

Section MutatorFacts.
Variable container_str : value -> string.

Lemma add_property_extend (p : element) (name : string) (v : value) :
  add_property container_str p name v = extend p (property_for container_str name v).
Proof.
  unfold add_property, property_for. destruct (truthy v); [reflexivity|].
  now rewrite extend_nil.
Qed.

Ltac branch :=
  cbn [bind get];
  match goal with
  | |- context [truthy ?v && is_dict ?v] =>
      destruct v as [| | | | | |[|? ?]]; cbn [truthy is_dict andb]; rewrite ?andb_false_r
  | |- context [if truthy ?v then _ else _] => destruct (truthy v)
  | |- context [join_value ?s ?v] => destruct (join_value s v)
  end.

Ltac flatten_extend :=
  rewrite ?add_property_extend, ?extend_extend, ?children_extend;
  simpl children; rewrite ?app_nil_l, ?app_nil_r, <- ?app_assoc.

Lemma inject_properties_extend (p : element) (analysis : value) :
  inject_properties container_str p analysis
  = let* added := injected container_str analysis in Return (extend p added).
Proof.
  unfold injected, inject_properties.
  destruct analysis; try reflexivity.
  repeat branch; cbn [bind get]; try reflexivity; flatten_extend; reflexivity.
Qed.

Lemma property_for_leaf (name : string) (v : value) :
  Forall property_leaf (property_for container_str name v).
Proof.
  unfold property_for. destruct (truthy v); repeat constructor.
Qed.

Lemma injected_leaves (analysis : value) (added : list element) :
  injected container_str analysis = Return added -> Forall property_leaf added.
Proof.
  unfold injected, inject_properties.
  destruct analysis; try discriminate.
  repeat branch; cbn [bind get]; try discriminate; flatten_extend;
    intros [= <-]; repeat (apply Forall_app; split); try apply property_for_leaf.
Qed.

(** What one injection does to a testcase. *)
Lemma inject_analysis_shape (testcase testcase' : element) (analysis : value) :
  inject_analysis container_str testcase analysis = Return testcase' ->
  exists added new_text,
    injected container_str analysis = Return added
    /\ format_analysis_text container_str analysis = Return new_text
    /\ testcase'
       = inject_system_out
           (put_child "properties"
              (extend (from_option id (new_element "properties")
                         (find "properties" testcase)) added)
              testcase)
           new_text.
Proof.
  unfold inject_analysis. rewrite inject_properties_extend.
  destruct (injected container_str analysis) as [added|]; [|discriminate].
  cbn [bind]. destruct (format_analysis_text container_str analysis) as [new_text|];
    [|discriminate].
  cbn [bind]. intros [= <-]. eauto.
Qed.


End MutatorFacts.

Section WalkFacts.
Variable container_str : value -> string.

Lemma need_unfold (e : element) :
  need e = S (fold_right (fun c n => Nat.max (need c) n) (headroom e) (children e)).
Proof. now destruct e. Qed.

Lemma fold_max_le (init b : nat) (cs : list element) :
  init <= b -> (forall c, In c cs -> need c <= b) ->
  fold_right (fun c n => Nat.max (need c) n) init cs <= b.
Proof.
  intros Hi. induction cs as [|c cs IH]; simpl; intros H; [exact Hi|].
  apply Nat.max_lub; [apply H; now left|apply IH; intros; apply H; now right].
Qed.

Lemma fold_max_ge (init : nat) (cs : list element) :
  init <= fold_right (fun c n => Nat.max (need c) n) init cs
  /\ forall c, In c cs -> need c <= fold_right (fun c n => Nat.max (need c) n) init cs.
Proof.
  induction cs as [|c cs [IH1 IH2]]; simpl; split; try lia.
  intros d [<-|Hd]; [lia|]. specialize (IH2 d Hd). lia.
Qed.

Lemma need_child (e c : element) : In c (children e) -> need c < need e.
Proof.
  intros H. rewrite (need_unfold e).
  pose proof (proj2 (fold_max_ge (headroom e) (children e)) c H). lia.
Qed.

Lemma need_headroom (e : element) : headroom e < need e.
Proof.
  rewrite (need_unfold e).
  pose proof (proj1 (fold_max_ge (headroom e) (children e))). lia.
Qed.

Lemma need_property_leaf (e : element) : property_leaf e -> need e = 1.
Proof. intros [Ht Hc]. rewrite need_unfold, Hc. unfold headroom. now rewrite Ht. Qed.

(** The children of a testcase after an injection need no more fuel than
    the testcase allows for. *)
Lemma inject_analysis_need (testcase testcase' : element) (analysis : value) (c : element) :
  String.eqb (tag testcase) "testcase" = true ->
  inject_analysis container_str testcase analysis = Return testcase' ->
  In c (children testcase') -> need c < need testcase.
Proof.
  intros Htag Hinj Hc.
  pose proof (need_headroom testcase) as Hlevel. unfold headroom in Hlevel. rewrite Htag in Hlevel.
  apply inject_analysis_shape in Hinj as (added & new_text & Hadded & _ & ->).
  apply injected_leaves in Hadded.
  set (old := from_option id (new_element "properties") (find "properties" testcase)) in *.
  assert (Hold : tag old = "properties" /\ need old < need testcase).
  { unfold old, find. destruct (find_in "properties" (children testcase)) as [p|] eqn:E; simpl.
    - apply find_in_tag in E as [-> Hin]. split; [reflexivity|now apply need_child].
    - split; [reflexivity|]. cbn. lia. }
  destruct Hold as [Hold_tag Hold_need].
  assert (Hnew : need (extend old added) < need testcase).
  { rewrite need_unfold. unfold headroom. rewrite tag_extend, Hold_tag. simpl String.eqb. cbn iota.
    assert (fold_right (fun c n => Nat.max (need c) n) 0 (children (extend old added))
            <= need testcase - 2) as Hfold; [|lia].
    apply fold_max_le; [lia|]. intros d Hd. rewrite children_extend in Hd.
    apply in_app_or in Hd as [Hd|Hd].
    - apply need_child in Hd. lia.
    - rewrite Forall_forall in Hadded. apply list_elem_of_In, Hadded in Hd.
      rewrite (need_property_leaf d Hd). lia. }
  assert (Hput : forall d, In d (children (put_child "properties" (extend old added) testcase)) ->
                      need d < need testcase).
  { intros d Hd. apply put_in_elem in Hd as [Hd| ->]; [now apply need_child|exact Hnew]. }
  unfold inject_system_out in Hc.
  destruct (negb (String.eqb new_text "")); [|now apply Hput].
  destruct (find "system-out" _) as [so|] eqn:Eso.
  - apply put_in_elem in Hc as [Hc| ->]; [now apply Hput|].
    apply find_in_tag in Eso as [_ Hin]. apply Hput in Hin.
    rewrite need_unfold in *. exact Hin.
  - simpl in Hc. apply in_app_or in Hc as [Hc|[<-|[]]]; [now apply Hput|]. cbn. lia.
Qed.

Lemma visit_all_enough (visit : element -> option (outcome element)) (cs : list element) :
  (forall c, In c cs -> is_Some (visit c)) -> is_Some (visit_all visit cs).
Proof.
  induction cs as [|c cs IH]; simpl; intros H; [eauto|].
  destruct (H c) as [[c'|e] ->]; [now left| |eauto].
  destruct IH as [[cs'|e] ->]; eauto.
Qed.

(** With the fuel [need] gives, the walk finishes. *)
Lemma iter_testcases_enough (analysis_map : gmap (string * string) value)
    (fuel : nat) (e : element) :
  need e <= fuel -> is_Some (iter_testcases container_str fuel analysis_map e).
Proof.
  revert e. induction fuel as [|fuel IH]; intros e Hfuel.
  - pose proof (need_headroom e). lia.
  - cbn [iter_testcases].
    destruct (String.eqb (tag e) "testcase") eqn:Htag.
    + destruct (inject_if_known container_str analysis_map e) as [e1|x] eqn:Hinj; [|eauto].
      destruct (visit_all_enough (iter_testcases container_str fuel analysis_map) (children e1))
        as [[cs|x] ->]; eauto.
      intros c Hc. apply IH. unfold inject_if_known in Hinj.
      destruct (analysis_map !! _) as [analysis|].
      * pose proof (inject_analysis_need e e1 analysis c Htag Hinj Hc). lia.
      * injection Hinj as <-. apply need_child in Hc. lia.
    + destruct (visit_all_enough (iter_testcases container_str fuel analysis_map) (children e))
        as [[cs|x] ->]; eauto.
      intros c Hc. apply IH. apply need_child in Hc. lia.
Qed.

(** The loop over the tree is the walk with enough fuel. *)
Lemma enrich_tree_walk (analysis_map : gmap (string * string) value) (root : element) :
  iter_testcases container_str (need root) analysis_map root
  = Some (enrich_tree container_str analysis_map root).
Proof.
  unfold enrich_tree.
  destruct (iter_testcases_enough analysis_map (need root) root) as [r ->]; [lia|reflexivity].
Qed.

End WalkFacts.

Section KeptFacts.
Variable container_str : value -> string.

Lemma starts_with_refl (s : string) : PyStr.starts_with s s.
Proof. exists EmptyString. now rewrite str_app_empty_r. Qed.

Lemma starts_with_trans (a b c : string) :
  PyStr.starts_with a b -> PyStr.starts_with b c -> PyStr.starts_with a c.
Proof. intros [r ->] [r' ->]. exists (r +:+ r'). apply str_app_assoc. Qed.

Lemma starts_with_empty (s : string) : PyStr.starts_with EmptyString s.
Proof. now exists s. Qed.

Lemma Forall2_kept_refl (cs : list element) :
  Forall (fun c => kept c c) cs -> Forall2 kept cs cs.
Proof. induction 1; constructor; auto. Qed.

Lemma kept_refl (e : element) : kept e e.
Proof.
  induction e as [name attrs t cs tl IH] using element_ind_children.
  rewrite <- (app_nil_r cs) at 2. constructor.
  - destruct (String.eqb name "system-out"); [apply starts_with_refl|reflexivity].
  - now apply Forall2_kept_refl.
  - constructor.
Qed.

Lemma kept_all_refl (cs : list element) : Forall2 kept cs cs.
Proof. apply Forall2_kept_refl, Forall_forall. intros; apply kept_refl. Qed.

Lemma kept_tag (e e' : element) : kept e e' -> tag e' = tag e.
Proof. now intros []. Qed.

Lemma kept_injected_tags (more more' : list element) :
  Forall2 kept more more' -> Forall injected_tag more -> Forall injected_tag more'.
Proof.
  induction 1 as [|e e' more more' He _ IH]; intros Hmore; [constructor|].
  inversion Hmore; subst. constructor; [|auto].
  unfold injected_tag in *. now rewrite (kept_tag _ _ He).
Qed.

Lemma kept_trans (a b c : element) : kept a b -> kept b c -> kept a c.
Proof.
  revert b c. induction a as [name attrs t cs tl IH] using element_ind_children.
  intros b c Hab Hbc. inversion Hab as [? ? ? t1 ? cs1 more1 ? Ht1 Hcs1 Hmore1]; subst.
  inversion Hbc as [? ? ? t2 ? cs2 more2 ? Ht2 Hcs2 Hmore2]; subst.
  apply Forall2_app_inv_l in Hcs2 as (cs2a & cs2b & Ha & Hb & ->).
  rewrite <- app_assoc. constructor.
  - destruct (String.eqb name "system-out"); [|congruence].
    eapply starts_with_trans; eassumption.
  - clear Hab Hbc Hb. revert cs1 cs2a Hcs1 Ha.
    induction IH as [|d cs Hd _ IHcs]; intros cs1 cs2a Hcs1 Ha.
    + inversion Hcs1; subst. inversion Ha; subst. constructor.
    + inversion Hcs1; subst. inversion Ha; subst. constructor; eauto.
  - apply Forall_app. split; [|exact Hmore2]. now apply (kept_injected_tags more1).
Qed.

(** Replacing a child by one that keeps it, and adding children at the
    end, keeps the element. *)
Lemma put_in_kept (name : string) (new : element) (cs : list element) :
  injected_tag new ->
  (forall c, find_in name cs = Some c -> kept c new) ->
  exists cs' more,
    put_in name new cs = cs' ++ more /\ Forall2 kept cs cs' /\ Forall injected_tag more.
Proof.
  intros Hnew. induction cs as [|c cs IH]; simpl; intros H.
  - exists [], [new]. split; [reflexivity|]. split; [constructor|].
    constructor; [exact Hnew|constructor].
  - destruct (String.eqb (tag c) name).
    + exists (new :: cs), []. split; [now rewrite app_nil_r|]. split; [|constructor].
      constructor; [now apply H|apply kept_all_refl].
    + destruct (IH H) as (cs' & more & -> & Hcs & Hmore).
      exists (c :: cs'), more. split; [reflexivity|]. split; [|exact Hmore].
      constructor; [apply kept_refl|exact Hcs].
Qed.

Lemma kept_children (e : element) (cs' more : list element) :
  Forall2 kept (children e) cs' -> Forall injected_tag more ->
  kept e (set_children e (cs' ++ more)).
Proof.
  destruct e as [name attrs t cs tl]. intros H Hmore. unfold set_children. simpl in *.
  constructor; [|exact H|exact Hmore].
  destruct (String.eqb name "system-out"); [apply starts_with_refl|reflexivity].
Qed.

Lemma put_child_kept (name : string) (new e : element) :
  injected_tag new ->
  (forall c, find name e = Some c -> kept c new) -> kept e (put_child name new e).
Proof.
  intros Hnew H.
  destruct (put_in_kept name new (children e) Hnew H) as (cs' & more & E & Hcs & Hmore).
  unfold put_child. rewrite E. now apply kept_children.
Qed.

Lemma extend_kept (e : element) (more : list element) :
  Forall injected_tag more -> kept e (extend e more).
Proof. intros Hmore. apply kept_children; [apply kept_all_refl|exact Hmore]. Qed.

Lemma inject_system_out_kept (e : element) (new_text : string) :
  kept e (inject_system_out e new_text).
Proof.
  unfold inject_system_out. destruct (negb (String.eqb new_text "")); [|apply kept_refl].
  destruct (find "system-out" e) as [so|] eqn:E.
  - pose proof (find_in_tag _ _ _ E) as [Htag _].
    apply put_child_kept; [right; right; exact Htag|].
    intros c Hc. rewrite E in Hc. injection Hc as <-.
    destruct so as [name attrs t cs tl].
    simpl in Htag. subst name. unfold set_text. simpl.
    rewrite <- (app_nil_r cs) at 2. constructor.
    + simpl. destruct (negb (String.eqb (from_option id "" t) "")) eqn:Et.
      * now exists (delimiter +:+ new_text).
      * apply negb_false_iff, String.eqb_eq in Et. rewrite Et. apply starts_with_empty.
    + apply kept_all_refl.
    + constructor.
  - apply extend_kept. constructor; [right; right; reflexivity|constructor].
Qed.

Lemma properties_tag (testcase : element) :
  tag (from_option id (new_element "properties") (find "properties" testcase))
  = "properties".
Proof.
  destruct (find "properties" testcase) as [p|] eqn:E; [|reflexivity].
  simpl. now apply find_in_tag in E as [? _].
Qed.

(** One injection keeps the testcase. *)
Lemma inject_analysis_kept (testcase testcase' : element) (analysis : value) :
  inject_analysis container_str testcase analysis = Return testcase' ->
  kept testcase testcase'.
Proof.
  intros H. apply inject_analysis_shape in H as (added & new_text & Hadded & _ & ->).
  eapply kept_trans; [|apply inject_system_out_kept].
  apply put_child_kept.
  - left. rewrite tag_extend. apply properties_tag.
  - intros c Hc. rewrite Hc. simpl. apply extend_kept.
    apply injected_leaves in Hadded. eapply Forall_impl; [exact Hadded|].
    intros p [Hp _]. right; left; exact Hp.
Qed.

Lemma visit_all_kept (visit : element -> option (outcome element))
    (cs cs' : list element) :
  (forall c c', visit c = Some (Return c') -> kept c c') ->
  visit_all visit cs = Some (Return cs') -> Forall2 kept cs cs'.
Proof.
  intros Hv. revert cs'. induction cs as [|c cs IH]; simpl; intros cs'.
  - intros [= <-]. constructor.
  - destruct (visit c) as [[c'|]|] eqn:Ec; try discriminate.
    destruct (visit_all visit cs) as [[rest|]|]; try discriminate.
    intros [= <-]. constructor; auto.
Qed.

Lemma iter_testcases_kept (analysis_map : gmap (string * string) value)
    (fuel : nat) (e e' : element) :
  iter_testcases container_str fuel analysis_map e = Some (Return e') -> kept e e'.
Proof.
  revert e e'. induction fuel as [|fuel IH]; intros e e'; [discriminate|].
  cbn [iter_testcases].
  set (first := if String.eqb (tag e) "testcase"
                then inject_if_known container_str analysis_map e else Return e).
  assert (Hfirst : forall e1, first = Return e1 -> kept e e1).
  { unfold first, inject_if_known. intros e1.
    destruct (String.eqb (tag e) "testcase").
    - destruct (analysis_map !! _).
      + apply inject_analysis_kept.
      + intros [= <-]. apply kept_refl.
    - intros [= <-]. apply kept_refl. }
  destruct first as [e1|]; [|discriminate].
  destruct (visit_all _ (children e1)) as [[cs|]|] eqn:Ecs; try discriminate.
  intros [= <-]. apply kept_trans with e1; [now apply Hfirst|].
  rewrite <- (app_nil_r cs). apply kept_children; [|constructor].
  eapply visit_all_kept; [|exact Ecs]. exact IH.
Qed.

End KeptFacts.

(** C7. A successful enrichment keeps every element and attribute of the
    document: the result has every element of the original at its place,
    with the same tag, attributes and tail; texts are the same, and for a
    [system-out] the old text is the beginning of the new one; new children
    only come after the old ones, and are [properties], [property] or
    [system-out] elements. *)
Theorem enrichment_keeps_document (container_str : value -> string)
    (analysis_map : gmap (string * string) value) (root root' : element) :
  enrich_tree container_str analysis_map root = Return root' ->
  kept root root'.
Proof.
  intros H. apply (iter_testcases_kept container_str analysis_map (need root)).
  now rewrite enrich_tree_walk, H.
Qed.

Section RepeatFacts.
Variable container_str : value -> string.

Lemma find_in_app_new (name : string) (cs : list element) (c : element) :
  find_in name cs = None -> tag c = name -> find_in name (cs ++ [c]) = Some c.
Proof.
  intros Hnone Htag. induction cs as [|d cs IH]; simpl in *.
  - now rewrite Htag, String.eqb_refl.
  - destruct (String.eqb (tag d) name); [discriminate|auto].
Qed.

Lemma find_properties_inject_system_out (e : element) (new_text : string) :
  find "properties" (inject_system_out e new_text) = find "properties" e.
Proof.
  unfold inject_system_out. destruct (negb (String.eqb new_text "")); [|reflexivity].
  destruct (find "system-out" e) as [so|] eqn:E.
  - apply find_in_put_in_other; [|discriminate].
    simpl. now apply find_in_tag in E as [? _].
  - apply find_in_app_other. discriminate.
Qed.

Lemma system_out_text_inject (e : element) (new_text : string) :
  system_out_text (inject_system_out e new_text)
  = appended_text (system_out_text e) new_text.
Proof.
  unfold inject_system_out, appended_text, system_out_text.
  destruct (String.eqb new_text ""); simpl; [reflexivity|].
  destruct (find "system-out" e) as [so|] eqn:E.
  - pose proof (find_in_tag _ _ _ E) as [Htag _].
    unfold find, put_child. simpl. rewrite find_in_put_in by exact Htag. simpl.
    now destruct (String.eqb (from_option id "" (text so)) "").
  - unfold find, sub_element. simpl. rewrite find_in_app_new by (exact E || reflexivity).
    reflexivity.
Qed.

Lemma starts_with_appended (existing new_text : string) :
  PyStr.starts_with existing (appended_text existing new_text).
Proof.
  unfold appended_text. destruct (String.eqb new_text ""); [apply starts_with_refl|].
  destruct (String.eqb_spec existing "") as [->|_]; [apply starts_with_empty|].
  now exists (delimiter +:+ new_text).
Qed.

(** The properties and the text of a testcase after one injection. *)
Lemma inject_analysis_effect (testcase testcase' : element) (analysis : value) :
  inject_analysis container_str testcase analysis = Return testcase' ->
  exists added new_text,
    injected container_str analysis = Return added
    /\ format_analysis_text container_str analysis = Return new_text
    /\ properties_children testcase' = properties_children testcase ++ added
    /\ system_out_text testcase'
       = appended_text (system_out_text testcase) new_text.
Proof.
  intros H. apply inject_analysis_shape in H as (added & new_text & Ha & Ht & ->).
  pose proof (properties_tag testcase) as Htag.
  exists added, new_text. repeat split; try assumption.
  - unfold properties_children. rewrite find_properties_inject_system_out.
    unfold find at 1, put_child. simpl.
    rewrite find_in_put_in by (now rewrite tag_extend).
    simpl. now destruct (find "properties" testcase).
  - rewrite system_out_text_inject. f_equal. unfold system_out_text, find at 1, put_child.
    simpl. rewrite find_in_put_in_other; [reflexivity| |discriminate].
    now rewrite tag_extend.
Qed.

Lemma count_named_app (name : string) (l1 l2 : list element) :
  count_named name (l1 ++ l2) = count_named name l1 + count_named name l2.
Proof. unfold count_named. now rewrite filter_app, length_app. Qed.

End RepeatFacts.

(** C2, as the code has it. A second enrichment with the same analysis does
    not reuse the properties of the first: [add_property] makes new elements
    each time, so the properties of the testcase after two runs are those it
    had at first followed by the injected ones twice, and each name is there
    twice as often as one run adds it. The text of [system-out] only grows:
    the text before a run is the beginning of the text after it. *)
Theorem second_injection_appends_again (container_str : value -> string)
    (testcase once twice : element) (analysis : value) :
  inject_analysis container_str testcase analysis = Return once ->
  inject_analysis container_str once analysis = Return twice ->
  exists added,
    injected container_str analysis = Return added
    /\ properties_children once = properties_children testcase ++ added
    /\ properties_children twice = properties_children testcase ++ added ++ added
    /\ (forall name,
          count_named name (properties_children twice)
          = count_named name (properties_children testcase)
            + 2 * count_named name added)
    /\ PyStr.starts_with (system_out_text testcase) (system_out_text once)
    /\ PyStr.starts_with (system_out_text once) (system_out_text twice).
Proof.
  intros H1 H2.
  apply inject_analysis_effect in H1 as (added & new_text & Ha & Ht & Hp1 & Hs1).
  apply inject_analysis_effect in H2 as (added' & new_text' & Ha' & Ht' & Hp2 & Hs2).
  rewrite Ha in Ha'. injection Ha' as <-.
  exists added. rewrite Hp2, Hp1, <- app_assoc, Hs2, Hs1.
  split; [exact Ha|]. split; [reflexivity|]. split; [reflexivity|].
  split; [|split; apply starts_with_appended].
  intros name. rewrite !count_named_app. lia.
Qed.

Lemma second_injection_appends_again_witness :
  exists added,
    injected no_containers sample_analysis = Return added
    /\ properties_children sample_once = properties_children sample_testcase ++ added
    /\ properties_children sample_twice
       = properties_children sample_testcase ++ added ++ added
    /\ (forall name,
          count_named name (properties_children sample_twice)
          = count_named name (properties_children sample_testcase)
            + 2 * count_named name added)
    /\ PyStr.starts_with (system_out_text sample_testcase) (system_out_text sample_once)
    /\ PyStr.starts_with (system_out_text sample_once) (system_out_text sample_twice).
Proof.
  apply (second_injection_appends_again no_containers sample_testcase sample_once
           sample_twice sample_analysis); vm_compute; reflexivity.
Defined.

(** C2, as the specification has it, fails: after two runs with the index
    of the sample, the testcase has two [ai_classification] properties. *)
Lemma second_run_duplicates_property :
  exists once twice testcase,
    enrich_tree no_containers sample_index sample_document = Return once
    /\ enrich_tree no_containers sample_index once = Return twice
    /\ testcase_at "tests.test_foo.TestClass" "test_bar" twice = Some testcase
    /\ count_named "ai_classification" (properties_children testcase) = 2.
Proof.
  eexists _, _, _. split; [vm_compute; reflexivity|].
  split; [vm_compute; reflexivity|]. split; vm_compute; reflexivity.
Qed.

Lemma enrichment_keeps_document_witness :
  enrich_tree no_containers sample_index sample_document = Return sample_enriched
  /\ kept sample_document sample_enriched.
Proof.
  assert (H : enrich_tree no_containers sample_index sample_document
              = Return sample_enriched) by (vm_compute; reflexivity).
  split; [exact H|].
  exact (enrichment_keeps_document no_containers sample_index sample_document
           sample_enriched H).
Defined.

(** ** Paths *)

Section PathFacts.

Import Path.

Lemma split_name_app (p : string) : p = fst (split_name p) +:+ snd (split_name p).
Proof.
  induction p as [|c r IH]; [reflexivity|].
  cbn [split_name]. destruct (has_char slash (String c r)); [|reflexivity].
  simpl. now rewrite <- IH.
Qed.

Lemma cut_last_dot_spec (s a b : string) :
  cut_last_dot s = Some (a, b) ->
  s = a +:+ b /\ exists b', b = String dot b' /\ has_char dot b' = false.
Proof.
  revert a b. induction s as [|c r IH]; intros a b; [discriminate|].
  cbn [cut_last_dot]. destruct (cut_last_dot r) as [[a' b'']|] eqn:E.
  - intros [= <- <-]. destruct (IH _ _ eq_refl) as [-> Hb]. split; [reflexivity|exact Hb].
  - destruct (Ascii.eqb_spec c dot) as [->|_]; [|discriminate].
    intros [= <- <-]. split; [reflexivity|]. exists r. split; [reflexivity|].
    clear IH. induction r as [|d r IHr]; [reflexivity|].
    cbn [cut_last_dot] in E. destruct (cut_last_dot r) as [[? ?]|]; [discriminate|].
    destruct (Ascii.eqb d dot) eqn:Ed; [discriminate|].
    simpl. rewrite Ed. now apply IHr.
Qed.

Lemma stem_suffix_spec (name : string) :
  exists suffix,
    name = fst (stem_suffix name) +:+ suffix
    /\ (suffix = EmptyString
        \/ exists rest, suffix = String dot rest /\ has_char dot rest = false).
Proof.
  unfold stem_suffix. destruct (cut_last_dot name) as [[a b]|] eqn:E.
  - destruct (negb (String.eqb a "") && (1 <? String.length b)).
    + apply cut_last_dot_spec in E as [-> Hb]. exists b. split; [reflexivity|now right].
    + exists EmptyString. split; [now rewrite str_app_empty_r|now left].
  - exists EmptyString. split; [now rewrite str_app_empty_r|now left].
Qed.

(** What [with_suffix] returns, and when. *)
Lemma with_suffix_returns (p suffix backup : string) :
  with_suffix p suffix = Return backup ->
  snd (split_name p) <> EmptyString /\ p <> "."
  /\ backup = fst (split_name p) +:+ fst (stem_suffix (snd (split_name p))) +:+ suffix.
Proof.
  unfold with_suffix. destruct (split_name p) as [dir name]. cbn [fst snd].
  destruct (String.eqb_spec name "") as [->|Hname]; [discriminate|].
  destruct (String.eqb_spec p ".") as [->|Hp]; [discriminate|].
  cbn [orb]. now intros [= <-].
Qed.

Lemma with_suffix_named (p suffix : string) :
  snd (split_name p) <> EmptyString -> p <> "." ->
  with_suffix p suffix
  = Return (fst (split_name p) +:+ fst (stem_suffix (snd (split_name p))) +:+ suffix).
Proof.
  intros Hname Hp. unfold with_suffix. destruct (split_name p) as [dir name].
  cbn [fst snd] in *.
  apply String.eqb_neq in Hname as ->. now apply String.eqb_neq in Hp as ->.
Qed.

(** [Path(raw)] on some texts: a final slash, a part [.] and repeated
    slashes are dropped, two slashes at the start are kept, [..] is kept. *)
Example normal_forms :
  normal "report.xml/" = "report.xml" /\ normal "./report.xml" = "report.xml"
  /\ normal "out//junit/./report.xml" = "out/junit/report.xml"
  /\ normal "//srv/report.xml" = "//srv/report.xml"
  /\ normal "///srv/report.xml" = "/srv/report.xml"
  /\ normal "a/../report.xml" = "a/../report.xml" /\ normal "./" = ".".
Proof. repeat split. Qed.

(** The backup path is never the path of the report. *)
Lemma with_suffix_fresh (p backup : string) :
  with_suffix p ".xml.bak" = Return backup -> backup <> p.
Proof.
  intros (_ & _ & ->)%with_suffix_returns Heq.
  pose proof (split_name_app p) as Hp.
  destruct (split_name p) as [dir name]. cbn [fst snd] in *.
  destruct (stem_suffix_spec name) as (suffix & Hname & Hsuffix).
  rewrite Hp in Heq. apply String.app_inj in Heq.
  assert (fst (stem_suffix name) +:+ ".xml.bak" = fst (stem_suffix name) +:+ suffix)
    as Hs by congruence.
  clear Heq. apply String.app_inj in Hs as Heq. symmetry in Heq.
  destruct Hsuffix as [->|(rest & -> & Hrest)]; [discriminate|].
  injection Heq as ->. discriminate.
Qed.

End PathFacts.

(** ** The analysis index *)

Section IndexFacts.

Lemma build_analysis_map_app (before after : list value)
    (analysis_map : gmap (string * string) value) :
  build_analysis_map (before ++ after) analysis_map
  = let* analysis_map := build_analysis_map before analysis_map in
    build_analysis_map after analysis_map.
Proof.
  revert analysis_map. induction before as [|entry before IH]; intros analysis_map;
    [reflexivity|].
  cbn [app build_analysis_map].
  destruct (get entry "test_name" (VStr "")) as [test_name|]; [|reflexivity].
  cbn [bind]. destruct (get entry "analysis" (VDict [])) as [analysis|]; [|reflexivity].
  cbn [bind]. destruct (truthy test_name && truthy analysis).
  - destruct (translate test_name); [|reflexivity]. cbn [bind]. apply IH.
  - cbn [bind]. apply IH.
Qed.

End IndexFacts.

(** ** The rewrite of the report *)

Section RewriteFacts.

Variable container_str : value -> string.
Variable et_parse : string -> outcome element.
Variable et_write : element -> string + (option string * exn).

(** The rewrite once the backup is made: the three steps under the
    handler. *)
Lemma rewrite_report_steps (xml_path backup_path original : string)
    (analysis_map : gmap (string * string) value) (w : world) :
  Path.with_suffix xml_path ".xml.bak" = Return backup_path ->
  files w !! xml_path = Some original ->
  copy_fault w xml_path backup_path = None ->
  rewrite_report container_str et_parse et_write xml_path analysis_map w
  = let w1 := set_files w (<[backup_path := original]> (files w)) in
    try_except
      (match rewritten container_str et_parse et_write analysis_map original with
       | inl content =>
           (fun w => (Return tt, set_files w (<[xml_path := content]> (files w))))
           ;;; unlink backup_path
       | inr (Some partial, exc) =>
           fun w => (Raise exc, set_files w (<[xml_path := partial]> (files w)))
       | inr (None, exc) => throw exc
       end)
      (fun exc => copy2 backup_path xml_path ;;; unlink backup_path ;;; throw exc) w1.
Proof.
  intros Hbackup Horiginal Hmade.
  pose proof (with_suffix_fresh _ _ Hbackup) as Hfresh.
  assert (String.eqb xml_path backup_path = false) as Hneq
    by (apply String.eqb_neq; congruence).
  unfold rewritten, rewrite_report, seq, lift, try_except, copy2, read_file, write,
    throw.
  rewrite Hbackup. cbn. rewrite Horiginal, Hneq, Hmade. cbn.
  rewrite lookup_insert_ne by congruence. rewrite Horiginal. cbn.
  destruct (et_parse original) as [tree|exc]; [|reflexivity]. cbn.
  destruct (enrich_tree container_str analysis_map tree) as [tree'|exc]; [|reflexivity].
  cbn. destruct (et_write tree') as [content|[[partial|] exc]]; reflexivity.
Qed.

(** C1, as the code has it. [rewrite_report] is the end of
    [enrich_junit_xml], from the backup on. Once the backup is made, the
    call changes no file but the report and the backup, logs nothing and
    posts nothing. When the file system refuses neither the restoring copy
    nor the removal of the backup, the backup is gone afterwards: the report
    holds the text written when the three steps succeed, and its text from
    before the call when one of them fails, and that failure is raised.
    When the removal of the backup is refused, the report is restored, the
    backup stays and the refusal is raised, also after three steps that
    succeeded. When the restoring copy is refused, its failure is raised
    in place of the first one, the backup stays with the text from before
    the call, and the report holds what the copy left or, when it left
    nothing, what the three steps had left. *)
Theorem backup_restores_report (xml_path backup_path original : string)
    (analysis_map : gmap (string * string) value) (w : world) :
  Path.with_suffix xml_path ".xml.bak" = Return backup_path ->
  files w !! xml_path = Some original ->
  copy_fault w xml_path backup_path = None ->
  let steps := rewritten container_str et_parse et_write analysis_map original in
  let after := rewrite_report container_str et_parse et_write xml_path analysis_map w in
  (forall p, p <> xml_path -> p <> backup_path ->
             files (snd after) !! p = files w !! p)
  /\ logged (snd after) = logged w
  /\ posted (snd after) = posted w
  /\ (unlink_fault w backup_path = None ->
      match steps with
      | inl content =>
          fst after = Return tt
          /\ files (snd after) !! xml_path = Some content
          /\ files (snd after) !! backup_path = None
      | inr (_, exc) =>
          copy_fault w backup_path xml_path = None ->
          fst after = Raise exc
          /\ files (snd after) !! xml_path = Some original
          /\ files (snd after) !! backup_path = None
      end)
  /\ (forall exc,
        unlink_fault w backup_path = Some exc ->
        copy_fault w backup_path xml_path = None ->
        fst after = Raise exc
        /\ files (snd after) !! xml_path = Some original
        /\ files (snd after) !! backup_path = Some original)
  /\ (forall left exc,
        copy_fault w backup_path xml_path = Some (left, exc) ->
        (exists failure, steps = inr failure) \/ unlink_fault w backup_path <> None ->
        fst after = Raise exc
        /\ files (snd after) !! xml_path
           = Some (from_option id (left_by steps original) left)
        /\ files (snd after) !! backup_path = Some original).
Proof.
  intros Hbackup Horiginal Hmade steps after.
  pose proof (with_suffix_fresh _ _ Hbackup) as Hfresh.
  assert (String.eqb backup_path xml_path = false) as Hneq
    by (apply String.eqb_neq; congruence).
  subst after. rewrite (rewrite_report_steps _ _ _ _ _ Hbackup Horiginal Hmade).
  subst steps. destruct (rewritten _ _ _ _ _) as [content|[[partial|] failure]];
    unfold try_except, seq, copy2, unlink, throw; cbn;
    rewrite ?lookup_insert_eq, ?Hneq; cbn;
    repeat (rewrite lookup_insert_ne by congruence); rewrite ?lookup_insert_eq; cbn;
    destruct (unlink_fault w backup_path) as [refusal|] eqn:Hunlink;
    destruct (copy_fault w backup_path xml_path) as [[[cut|] refusal']|] eqn:Hcopy; cbn;
    repeat (rewrite lookup_insert_ne by congruence); rewrite ?lookup_insert_eq; cbn;
    rewrite ?Hunlink; cbn.
  all: repeat split; try reflexivity; try discriminate; intros; simplify_map_eq;
    try reflexivity; try congruence.
  all: try (match goal with H : _ \/ _ |- _ => destruct H as [[? ?]|?] end;
            try discriminate; try congruence).
Qed.

End RewriteFacts.

(** ** The analysis client and the hooks *)

Section ClientFacts.

Variable container_str : value -> string.
Variable py_int : string -> outcome Z.
Variable requests_post : request -> outcome response.
Variable et_parse : string -> outcome element.
Variable et_write : element -> string + (option string * exn).

Local Abbreviation enrich :=
  (enrich_junit_xml container_str py_int requests_post et_parse et_write).


(** C10. When [requests] could not be imported, the call returns at once:
    no request, no file changed, nothing logged. *)
Theorem requests_missing_is_silent (session : session) (failures : list failure)
    (w : world) :
  requests w = false ->
  enrich session failures w = (Return tt, w).
Proof. intros H. unfold enrich_junit_xml. now rewrite H. Qed.


End ClientFacts.

Section QuietFacts.

Lemma quiet_ret {A : Type} (a : A) : quiet (ret a).
Proof. now intros w. Qed.

Lemma quiet_throw {A : Type} (e : exn) : quiet (@throw A e).
Proof. now intros w. Qed.

Lemma quiet_lift {A : Type} (o : outcome A) : quiet (lift o).
Proof. now intros w. Qed.

Lemma quiet_seq {A B : Type} (m : M A) (k : A -> M B) :
  quiet m -> (forall a, quiet (k a)) -> quiet (seq m k).
Proof.
  intros Hm Hk w. unfold seq. specialize (Hm w).
  destruct (m w) as [[a|e] w']; simpl in *; [|exact Hm].
  destruct (Hk a w') as [H1 H2]. destruct Hm as [H3 H4]. split; congruence.
Qed.

Lemma quiet_try_except {A : Type} (body : M A) (handler : exn -> M A) :
  quiet body -> (forall e, quiet (handler e)) -> quiet (try_except body handler).
Proof.
  intros Hm Hk w. unfold try_except. specialize (Hm w).
  destruct (body w) as [[a|e] w']; simpl in *; [exact Hm|].
  destruct (Hk e w') as [H1 H2]. destruct Hm as [H3 H4]. split; congruence.
Qed.

Lemma quiet_read_file (p : string) : quiet (read_file p).
Proof. intros w. unfold read_file. now destruct (files w !! p). Qed.

Lemma quiet_copy2 (src dst : string) : quiet (copy2 src dst).
Proof.
  intros w. unfold copy2. destruct (files w !! src); [|easy].
  destruct (String.eqb src dst); [easy|].
  now destruct (copy_fault w src dst) as [[[partial|] exc]|].
Qed.

Lemma quiet_unlink (p : string) : quiet (unlink p).
Proof.
  intros w. unfold unlink. destruct (files w !! p); [|easy].
  now destruct (unlink_fault w p).
Qed.

End QuietFacts.

Create HintDb quiet.
#[export] Hint Resolve quiet_ret quiet_throw quiet_lift quiet_read_file quiet_copy2
  quiet_unlink : quiet.

Section RequestFacts.

Variable container_str : value -> string.
Variable py_int : string -> outcome Z.
Variable requests_post : request -> outcome response.
Variable et_parse : string -> outcome element.
Variable et_write : element -> string + (option string * exn).

Local Abbreviation enrich :=
  (enrich_junit_xml container_str py_int requests_post et_parse et_write).

Lemma quiet_write (xml_path : string) (tree : element) :
  quiet (write et_write xml_path tree).
Proof. intros w. unfold write. now destruct (et_write tree) as [?|[[?|] ?]]. Qed.

Lemma quiet_rewrite_report (xml_path : string)
    (analysis_map : gmap (string * string) value) :
  quiet (rewrite_report container_str et_parse et_write xml_path analysis_map).
Proof.
  unfold rewrite_report.
  repeat (first [apply quiet_seq | apply quiet_try_except | apply quiet_write
                | solve [auto with quiet] | intros ?]).
Qed.

Lemma quiet_apply_result (xml_path : string) (result : value) :
  quiet (apply_result container_str et_parse et_write xml_path result).
Proof.
  unfold apply_result.
  repeat (first [apply quiet_seq | solve [auto with quiet] | intros ?]).
  destruct (bool_decide _); [apply quiet_ret|apply quiet_rewrite_report].
Qed.

(** What the exchange does once [int] has accepted the timeout: one call
    of [requests.post]. *)
Lemma exchange_posted (server_url ai_provider ai_model : string)
    (failures : list failure) (w : world) (seconds : Z) :
  py_int (from_option id "600" (environ w !! "JJI_TIMEOUT")) = Return seconds ->
  let req := Request (PyStr.rstrip_slash server_url +:+ "/analyze-failures")
               failures ai_provider ai_model seconds in
  exchange py_int requests_post server_url ai_provider ai_model failures w
  = (let* response := requests_post req in
     let* _ := raise_for_status response in
     json response,
     add_post w req).
Proof.
  intros Hint. unfold exchange, seq, lift, post. rewrite Hint. cbn.
  destruct (requests_post _) as [response|]; cbn; [|reflexivity].
  now destruct (raise_for_status response) as [[]|].
Qed.

Lemma exchange_not_posted (server_url ai_provider ai_model : string)
    (failures : list failure) (w : world) (exc : exn) :
  py_int (from_option id "600" (environ w !! "JJI_TIMEOUT")) = Raise exc ->
  exchange py_int requests_post server_url ai_provider ai_model failures w
  = (Raise exc, w).
Proof. intros Hint. unfold exchange, seq, lift. now rewrite Hint. Qed.

Lemma unset_some (s : string) : s <> "" -> unset (Some s) = false.
Proof. intros H. now apply String.eqb_neq. Qed.

(** The call when every precondition holds. *)
Lemma enrich_ready (session : session) (failures : list failure) (w : world)
    (xml_path server_url ai_provider ai_model : string) :
  ready session failures w xml_path server_url ai_provider ai_model ->
  enrich session failures w
  = match exchange py_int requests_post server_url ai_provider ai_model failures w with
    | (Raise exc, w1) =>
        if is_RequestException (exc_type exc) then request_failed exc w1
        else (Raise exc, w1)
    | (Return result, w1) =>
        apply_result container_str et_parse et_write xml_path result w1
    end.
Proof.
  intros (Hreq & (raw & Hxml & Hraw & Hnormal) & Hfile & Hfail & Hurl & Hurl'
          & Hprov & Hprov' & Hmodel & Hmodel').
  unfold enrich_junit_xml. rewrite Hreq, Hxml, Hurl, Hprov, Hmodel.
  rewrite !unset_some by assumption. cbn [negb orb from_option id].
  rewrite Hnormal. unfold path_exists. rewrite bool_decide_true by exact Hfile.
  rewrite bool_decide_false by exact Hfail. reflexivity.
Qed.

(** The call when the exchange gives a response with entries: what is left
    is the rewrite of the report. *)
Lemma enrich_rewrites (session : session) (failures : list failure) (w : world)
    (xml_path server_url ai_provider ai_model : string) (seconds : Z)
    (response : response) (result listed : value) (entries : list value)
    (analysis_map : gmap (string * string) value) :
  ready session failures w xml_path server_url ai_provider ai_model ->
  py_int (from_option id "600" (environ w !! "JJI_TIMEOUT")) = Return seconds ->
  let req := Request (PyStr.rstrip_slash server_url +:+ "/analyze-failures")
               failures ai_provider ai_model seconds in
  requests_post req = Return response ->
  raise_for_status response = Return tt ->
  json response = Return result ->
  get result "failures" (VList []) = Return listed ->
  iterate listed = Return entries ->
  build_analysis_map entries ∅ = Return analysis_map ->
  analysis_map <> ∅ ->
  enrich session failures w
  = rewrite_report container_str et_parse et_write xml_path analysis_map (add_post w req).
Proof.
  intros Hready Hint req Hpost Hstatus Hjson Hget Hiter Hbuild Hne.
  rewrite (enrich_ready _ _ _ _ _ _ _ Hready).
  rewrite (exchange_posted server_url ai_provider ai_model failures w seconds Hint).
  fold req. rewrite Hpost. cbn [bind]. rewrite Hstatus. cbn [bind]. rewrite Hjson.
  unfold apply_result, seq, lift. rewrite Hget, Hiter, Hbuild.
  now rewrite bool_decide_false by exact Hne.
Qed.

(** The call calls [requests.post] once or not at all. *)
Lemma enrich_posted (session : session) (failures : list failure) (w : world) :
  posted (snd (enrich session failures w)) = posted w
  \/ exists req, posted (snd (enrich session failures w)) = posted w ++ [req].
Proof.
  unfold enrich_junit_xml.
  destruct (negb (requests w)); [now left|].
  destruct (_ || _ || _); [now left|].
  destruct (unset (environ w !! "JJI_SERVER_URL")); [now left|].
  destruct (_ || _); [now left|].
  set (url := from_option id "" (environ w !! "JJI_SERVER_URL")).
  set (provider := from_option id "" (environ w !! "JJI_AI_PROVIDER")).
  set (model := from_option id "" (environ w !! "JJI_AI_MODEL")).
  destruct (py_int (from_option id "600" (environ w !! "JJI_TIMEOUT")))
    as [seconds|exc] eqn:Hint.
  - rewrite (exchange_posted url provider model failures w seconds Hint).
    right. eexists.
    destruct (let* response := requests_post _ in _) as [result|exc].
    + now rewrite (proj2 (quiet_apply_result _ result _)).
    + now destruct (is_RequestException (exc_type exc)).
  - rewrite (exchange_not_posted url provider model failures w exc Hint).
    left. now destruct (is_RequestException (exc_type exc)).
Qed.

(** C6, as the code has it. A call of [enrich_junit_xml] calls
    [requests.post] at most once: there is no retry. When [requests] is
    there, the report exists, failures were collected, the endpoint, the
    provider and the model are set and [int] accepts the text of the
    timeout ([JJI_TIMEOUT], or [600] without it), it calls it exactly once,
    with that timeout. When the post, the status check or the decoding
    then raises a [requests.RequestException] (network error, timeout,
    status that is not a success), the call logs an error and returns, with
    every file as it was; any other exception of these three leaves the
    function, with nothing logged. When [int] raises on the text of the
    timeout, [requests.post] is not called and that exception leaves the
    function, with the world as it was. *)
Theorem one_request_no_retry (session : session) (failures : list failure)
    (w : world) (xml_path server_url ai_provider ai_model : string) :
  ready session failures w xml_path server_url ai_provider ai_model ->
  let timeout_text := from_option id "600" (environ w !! "JJI_TIMEOUT") in
  (environ w !! "JJI_TIMEOUT" = None -> timeout_text = "600")
  /\ (forall seconds,
        py_int timeout_text = Return seconds ->
        let req := Request (PyStr.rstrip_slash server_url +:+ "/analyze-failures")
                     failures ai_provider ai_model seconds in
        posted (snd (enrich session failures w)) = posted w ++ [req]
        /\ (forall exc,
              requests_post req = Raise exc
              \/ (exists response,
                    requests_post req = Return response
                    /\ (raise_for_status response = Raise exc
                        \/ (raise_for_status response = Return tt
                            /\ json response = Raise exc))) ->
              enrich session failures w
              = if is_RequestException (exc_type exc)
                then (Return tt, add_log (add_post w req) (request_error exc))
                else (Raise exc, add_post w req)))
  /\ (forall exc,
        py_int timeout_text = Raise exc ->
        is_RequestException (exc_type exc) = false ->
        enrich session failures w = (Raise exc, w))
  /\ (forall session' failures' w',
        posted (snd (enrich session' failures' w')) = posted w'
        \/ exists req',
             posted (snd (enrich session' failures' w')) = posted w' ++ [req']).
Proof.
  intros Hready timeout_text.
  rewrite (enrich_ready _ _ _ _ _ _ _ Hready).
  split; [|split; [|split]].
  - intros Hnone. subst timeout_text. now rewrite Hnone.
  - intros seconds Hint req.
    rewrite (exchange_posted server_url ai_provider ai_model failures w seconds Hint).
    fold req. split.
    + destruct (let* response := requests_post req in _) as [result|exc].
      * now rewrite (proj2 (quiet_apply_result _ result _)).
      * now destruct (is_RequestException (exc_type exc)).
    + intros exc [Hpost|(response & Hpost & [Hstatus|[Hstatus Hjson]])];
        rewrite Hpost; cbn [bind]; rewrite ?Hstatus; cbn [bind]; rewrite ?Hjson;
        now destruct (is_RequestException (exc_type exc)).
  - intros exc Hint Hclass.
    rewrite (exchange_not_posted server_url ai_provider ai_model failures w exc Hint).
    now rewrite Hclass.
  - intros. apply enrich_posted.
Qed.

(** C3. Neither hook raises. [pytest_sessionfinish] returns whatever the
    enrichment does, and logs an error when it raised. The collector
    returns too: it adds one record when the call has an exception and the
    two texts can be taken from it, and keeps the list as it was, logging a
    warning, when taking one of them raises; the records collected before
    are kept in both cases. *)
Theorem hooks_never_raise :
  (forall (session : session) (collected : list failure) (w : world),
      fst (pytest_sessionfinish container_str py_int requests_post et_parse et_write
             session collected w) = Return tt
      /\ match enrich session collected w with
         | (Return _, w1) =>
             snd (pytest_sessionfinish container_str py_int requests_post et_parse
                    et_write session collected w) = w1
         | (Raise exc, w1) =>
             snd (pytest_sessionfinish container_str py_int requests_post et_parse
                    et_write session collected w)
             = add_log w1
                 (Log ERROR
                    ("Failed to enrich JUnit XML, original preserved: " +:+ exc_str exc))
         end)
  /\ (forall (nodeid : string) (c : call_info) (collected : list failure) (w : world),
        match call_excinfo c with
        | None => pytest_runtest_makereport nodeid c collected w = (Return collected, w)
        | Some info =>
            match value_str info, getrepr_str info with
            | Return message, Return trace =>
                pytest_runtest_makereport nodeid c collected w
                = (Return (collected ++
                             [Failure nodeid message trace (call_duration c) "FAILED"
                                (call_when c)]), w)
            | Raise exc, _ | Return _, Raise exc =>
                pytest_runtest_makereport nodeid c collected w
                = (Return collected,
                   add_log w
                     (Log WARNING ("Failed to collect failure data: " +:+ exc_str exc)))
            end
        end).
Proof.
  split.
  - intros session collected w. unfold pytest_sessionfinish, try_except.
    destruct (enrich session collected w) as [[[]|exc] w1]; split; reflexivity.
  - intros nodeid c collected w. unfold pytest_runtest_makereport, try_except.
    destruct (call_excinfo c) as [info|]; [|reflexivity].
    unfold seq, lift.
    destruct (value_str info) as [message|exc]; [|reflexivity].
    destruct (getrepr_str info) as [trace|exc]; reflexivity.
Qed.

End RequestFacts.

(** ** The entries of the response *)

Section IndexFacts2.

Lemma build_incomplete (entry : value) (rest : list value)
    (analysis_map : gmap (string * string) value) :
  incomplete entry = true ->
  build_analysis_map (entry :: rest) analysis_map = build_analysis_map rest analysis_map.
Proof.
  destruct entry as [| | | | | |items]; try discriminate. cbn [incomplete].
  intros H%negb_true_iff. cbn [build_analysis_map get bind]. now rewrite H.
Qed.

Lemma build_complete (entry : value) (nodeid : string) (analysis : value)
    (rest : list value) (analysis_map : gmap (string * string) value) :
  complete entry = Some (nodeid, analysis) ->
  build_analysis_map (entry :: rest) analysis_map
  = build_analysis_map rest (<[nodeid_to_classname_and_name nodeid := analysis]> analysis_map).
Proof.
  destruct entry as [| | | | | |items]; try discriminate. cbn [complete].
  destruct (assoc "test_name" items) as [[| | | |s| |]|] eqn:Et; try discriminate.
  destruct (assoc "analysis" items) as [a|] eqn:Ea; try discriminate.
  destruct (negb (String.eqb s "") && truthy a) eqn:E; [|discriminate].
  intros [= <- <-]. cbn [build_analysis_map get bind]. rewrite Et, Ea. cbn.
  cbn in E. now rewrite E.
Qed.

Lemma incomplete_not_complete (entry : value) :
  incomplete entry = true -> complete entry = None.
Proof.
  destruct entry as [| | | | | |items]; try discriminate. cbn.
  destruct (assoc "test_name" items) as [[| | | |s| |]|]; try reflexivity.
  destruct (assoc "analysis" items) as [a|]; [|reflexivity].
  cbn. now intros ->%negb_true_iff.
Qed.

End IndexFacts2.

(** C8, as the code has it. When every entry of the response is an object
    that is complete or incomplete, the loop does not fail: it gives the
    index of the complete entries, each converted by the translator, and
    skips every entry without a test name or without an analysis. *)
Theorem incomplete_entries_are_skipped (entries : list value)
    (analysis_map : gmap (string * string) value) :
  Forall (fun entry => incomplete entry = true \/ is_Some (complete entry)) entries ->
  build_analysis_map entries analysis_map = Return (index_of entries analysis_map).
Proof.
  intros H. revert analysis_map. induction H as [|entry rest Hentry _ IH]; intros analysis_map;
    [reflexivity|].
  destruct Hentry as [Hi|[[nodeid analysis] Hc]].
  - rewrite build_incomplete by exact Hi. cbn [index_of].
    rewrite incomplete_not_complete by exact Hi. apply IH.
  - rewrite (build_complete _ _ _ _ _ Hc). cbn [index_of]. rewrite Hc. apply IH.
Qed.

(** ** The sample run *)

Lemma backup_restores_report_witness :
  Path.with_suffix "report.xml" ".xml.bak" = Return "report.xml.bak"
  /\ files sample_world !! "report.xml" = Some sample_text
  /\ copy_fault sample_world "report.xml" "report.xml.bak" = None
  /\ let after :=
       rewrite_report no_containers sample_parse failing_write "report.xml"
         sample_index sample_world in
     fst after = Raise disk_full
     /\ files (snd after) !! "report.xml" = Some sample_text
     /\ files (snd after) !! "report.xml.bak" = None.
Proof.
  assert (H1 : Path.with_suffix "report.xml" ".xml.bak" = Return "report.xml.bak")
    by reflexivity.
  assert (H2 : files sample_world !! "report.xml" = Some sample_text)
    by (vm_compute; reflexivity).
  assert (H3 : copy_fault sample_world "report.xml" "report.xml.bak" = None)
    by reflexivity.
  split; [exact H1|]. split; [exact H2|]. split; [exact H3|].
  pose proof (backup_restores_report no_containers sample_parse failing_write
                "report.xml" "report.xml.bak" sample_text sample_index sample_world
                H1 H2 H3) as H.
  cbv zeta in *. destruct H as (_ & _ & _ & H & _). specialize (H eq_refl).
  replace (rewritten no_containers sample_parse failing_write sample_index sample_text)
    with (failing_write sample_enriched) in H by (vm_compute; reflexivity).
  exact (H eq_refl).
Defined.

(** C1, as the specification has it, fails: on a report that cannot be
    written, the write fails after the backup was made, the copy that
    should restore the report fails too, and the call leaves the backup
    behind. *)
Lemma read_only_report_keeps_backup :
  files read_only_world !! "report.xml.bak" = None
  /\ rewritten no_containers sample_parse refused_write sample_index sample_text
     = inr (None, permission_denied)
  /\ let after :=
       enrich_junit_xml no_containers ascii_int sample_post sample_parse refused_write
         sample_session [sample_failure] read_only_world in
     fst after = Raise permission_denied
     /\ files (snd after) !! "report.xml.bak" = Some sample_text.
Proof. repeat split; vm_compute; reflexivity. Qed.

Lemma requests_missing_is_silent_witness :
  requests no_requests_world = false
  /\ enrich_junit_xml no_containers ascii_int sample_post sample_parse sample_write
       sample_session [sample_failure] no_requests_world
     = (Return tt, no_requests_world).
Proof.
  split; [reflexivity|].
  apply (requests_missing_is_silent no_containers ascii_int sample_post sample_parse
           sample_write sample_session [sample_failure] no_requests_world).
  reflexivity.
Defined.



Lemma sample_ready :
  ready sample_session [sample_failure] sample_world "report.xml"
    "http://jji.example:8000/" "claude" "a-model".
Proof.
  unfold ready. split; [reflexivity|].
  split; [exists "report.xml"; repeat split; discriminate || reflexivity|].
  split; [exists sample_text; vm_compute; reflexivity|].
  repeat split; try discriminate; vm_compute; reflexivity.
Defined.

Lemma one_request_no_retry_witness :
  ready sample_session [sample_failure] sample_world "report.xml"
    "http://jji.example:8000/" "claude" "a-model"
  /\ posted (snd (enrich_junit_xml no_containers ascii_int refused_post sample_parse
                    sample_write sample_session [sample_failure] sample_world))
     = [sample_request].
Proof.
  split; [exact sample_ready|].
  pose proof (one_request_no_retry no_containers ascii_int refused_post sample_parse
                sample_write sample_session [sample_failure] sample_world
                "report.xml" "http://jji.example:8000/" "claude" "a-model"
                sample_ready) as H.
  cbv zeta in H. destruct H as (_ & H & _).
  exact (proj1 (H 600%Z eq_refl)).
Defined.

(** C6, as the specification has it, fails: with every precondition of the
    client in place and [JJI_TIMEOUT] set to a text that is no integer, the
    call never calls [requests.post], and raises the [ValueError] of
    [int]. *)
Lemma bad_timeout_sends_nothing :
  ready sample_session [sample_failure] bad_timeout_world "report.xml"
    "http://jji.example:8000/" "claude" "a-model"
  /\ posted (snd (enrich_junit_xml no_containers ascii_int sample_post sample_parse
                    sample_write sample_session [sample_failure] bad_timeout_world))
     = []
  /\ fst (enrich_junit_xml no_containers ascii_int sample_post sample_parse
            sample_write sample_session [sample_failure] bad_timeout_world)
     = Raise (raise_of ValueError
                "invalid literal for int() with base 10: ten minutes").
Proof.
  split; [|split; vm_compute; reflexivity].
  unfold ready. split; [reflexivity|].
  split; [exists "report.xml"; repeat split; discriminate || reflexivity|].
  split; [exists sample_text; vm_compute; reflexivity|].
  repeat split; try discriminate; vm_compute; reflexivity.
Qed.

Lemma incomplete_entries_are_skipped_witness :
  Forall (fun entry => incomplete entry = true \/ is_Some (complete entry))
    [VDict []; VDict [("test_name", VStr "tests/test_foo.py::test_other")];
     VDict [("test_name", VStr ""); ("analysis", sample_analysis)]; sample_entry]
  /\ build_analysis_map
       [VDict []; VDict [("test_name", VStr "tests/test_foo.py::test_other")];
        VDict [("test_name", VStr ""); ("analysis", sample_analysis)]; sample_entry] ∅
     = Return sample_index.
Proof.
  assert (H : Forall (fun entry => incomplete entry = true \/ is_Some (complete entry))
                [VDict []; VDict [("test_name", VStr "tests/test_foo.py::test_other")];
                 VDict [("test_name", VStr ""); ("analysis", sample_analysis)];
                 sample_entry]).
  { repeat (constructor;
              [first [left; reflexivity | right; eexists; reflexivity]|]).
    constructor. }
  split; [exact H|].
  rewrite (incomplete_entries_are_skipped _ ∅ H). reflexivity.
Defined.

(** C8, as the specification has it, fails: an entry that is not an object
    is not skipped. Its [get] raises, and the entry after it, which alone
    gives the index of the sample, is not converted. *)
Lemma entry_that_is_no_object_fails_the_batch :
  build_analysis_map [VStr "no object"; sample_entry] ∅
  = Raise (raise_of AttributeError "object has no attribute 'get'")
  /\ build_analysis_map [sample_entry] ∅ = Return sample_index.
Proof. split; reflexivity. Qed.

(** The whole call on the sample: one request, the report enriched, the
    backup gone. *)
Example sample_run :
  enrich_junit_xml no_containers ascii_int sample_post sample_parse sample_write
    sample_session [sample_failure] sample_world
  = (Return tt,
     World true sample_environ {[ "report.xml" := to_text sample_enriched ]} []
       [sample_request] no_copy_fault no_unlink_fault).
Proof. reflexivity. Qed.

(** The same call with a write that fails, under [pytest_sessionfinish]:
    the report is as it was, the backup is gone, the error is logged. *)
Example sample_failed_write :
  pytest_sessionfinish no_containers ascii_int sample_post sample_parse failing_write
    sample_session [sample_failure] sample_world
  = (Return tt,
     World true sample_environ {[ "report.xml" := sample_text ]}
       [Log ERROR
          "Failed to enrich JUnit XML, original preserved: [Errno 28] No space left on device"]
       [sample_request] no_copy_fault no_unlink_fault).
Proof. reflexivity. Qed.

(** An analysis whose [affected_tests] is a number: the join raises inside
    the [try] block, the report is restored and the hook logs the error. *)
Example sample_failed_injection :
  pytest_sessionfinish no_containers ascii_int
    (fun _ =>
       Return (Response (Return tt)
                 (Return (VDict [("failures",
                                  VList [VDict [("test_name",
                                                 VStr "tests/test_foo.py::TestClass::test_bar");
                                                ("analysis",
                                                 VDict [("classification", VStr "FLAKY");
                                                        ("affected_tests", VInt 5)])]])]))))
    sample_parse sample_write sample_session [sample_failure] sample_world
  = (Return tt,
     World true sample_environ {[ "report.xml" := sample_text ]}
       [Log ERROR "Failed to enrich JUnit XML, original preserved: object is not iterable"]
       [sample_request] no_copy_fault no_unlink_fault).
Proof. reflexivity. Qed.

(** The text for an analysis with a code fix. *)
Example sample_text_with_code_fix :
  format_analysis_text no_containers
    (VDict [("classification", VStr "CODE ISSUE");
            ("code_fix", VDict [("file", VStr "src/foo.py"); ("line", VInt 12);
                                ("change", VStr "import os")])])
  = Return ("Classification: CODE ISSUE" +:+ nl +:+ nl +:+ "Code Fix:" +:+ nl
            +:+ "  File: src/foo.py" +:+ nl +:+ "  Line: 12" +:+ nl
            +:+ "  Change: import os").
Proof. reflexivity. Qed.

(** The refused connection: one request, an error logged, the report as it
    was. *)
Example sample_refused :
  enrich_junit_xml no_containers ascii_int refused_post sample_parse sample_write
    sample_session [sample_failure] sample_world
  = (Return tt,
     World true sample_environ {[ "report.xml" := sample_text ]}
       [Log ERROR "Server request failed: Connection refused"] [sample_request]
       no_copy_fault no_unlink_fault).
Proof. reflexivity. Qed.

(** ** More on strings and on the translator *)

Section TranslatorFacts.

Import PyStr.

Lemma has_char_app (c : ascii) (a b : string) :
  Path.has_char c (a +:+ b) = Path.has_char c a || Path.has_char c b.
Proof. induction a as [|d a IH]; simpl; [reflexivity|]. now rewrite IH, orb_assoc. Qed.

Lemma replace_slash_no_slash (s : string) :
  Path.has_char "/"%char (replace_slash s) = false.
Proof.
  induction s as [|c s IH]; [reflexivity|]. simpl. rewrite IH, orb_false_r.
  destruct (Ascii.eqb_spec c "/"%char) as [->|Hc]; [reflexivity|].
  now apply Ascii.eqb_neq.
Qed.

Lemma replace_slash_app (a b : string) :
  replace_slash (a +:+ b) = replace_slash a +:+ replace_slash b.
Proof. induction a as [|c a IH]; simpl; [reflexivity|]. now rewrite IH. Qed.

(** [removesuffix] gives the beginning of its argument. *)
Lemma removesuffix_front (suf s : string) :
  exists back, s = removesuffix suf s +:+ back.
Proof.
  induction s as [|c s [back IH]]; [now exists EmptyString|].
  cbn [removesuffix]. destruct (String.eqb (String c s) suf).
  - now exists (String c s).
  - exists back. simpl. now rewrite <- IH.
Qed.

Lemma module_of_front (path : string) :
  exists back, replace_slash path = module_of path +:+ back.
Proof. apply removesuffix_front. Qed.

End TranslatorFacts.

(** X1. The module the translator derives from the path never has a ["/"]:
    every one is replaced before the extension is removed. So with exactly
    one separator the class name has none. *)
Theorem module_has_no_slash (nodeid : string) :
  Path.has_char "/"%char (module_of nodeid) = false
  /\ (PyStr.count nodeid = 1 ->
      Path.has_char "/"%char (fst (nodeid_to_classname_and_name nodeid)) = false).
Proof.
  assert (Hmod : forall path, Path.has_char "/"%char (module_of path) = false).
  { intros path. destruct (module_of_front path) as [back Hback].
    pose proof (replace_slash_no_slash path) as H. rewrite Hback, has_char_app in H.
    now apply orb_false_elim in H as [H _]. }
  split; [apply Hmod|]. intros Hcount.
  pose proof (length_split nodeid) as Hlen. rewrite Hcount in Hlen.
  unfold nodeid_to_classname_and_name.
  destruct (PyStr.split nodeid) as [|p0 [|p1 [|p2 rest]]]; try discriminate.
  apply Hmod.
Qed.

Lemma module_has_no_slash_witness :
  PyStr.count "tests/sub/test_foo.py::test_bar" = 1
  /\ Path.has_char "/"%char
       (fst (nodeid_to_classname_and_name "tests/sub/test_foo.py::test_bar")) = false.
Proof.
  split; [reflexivity|].
  apply (module_has_no_slash "tests/sub/test_foo.py::test_bar"). reflexivity.
Defined.


(** X3. The extension is removed after the slashes are replaced: a path
    that ends with [.py] gives its beginning with dots for slashes, and so
    does a path that ends with [/py], whose last slash has become the dot of
    an extension. *)
Theorem module_of_extension (front : string) :
  module_of (front +:+ ".py") = PyStr.replace_slash front
  /\ module_of (front +:+ "/py") = PyStr.replace_slash front.
Proof.
  unfold module_of. rewrite !replace_slash_app.
  split; apply removesuffix_app; discriminate.
Qed.

Section SlashFacts.

Import PyStr.

Lemma rstrip_slash_empty (s : string) :
  rstrip_slash s = EmptyString -> only_slashes s = true.
Proof.
  induction s as [|c s IH]; [reflexivity|]. cbn [rstrip_slash only_slashes].
  destruct (rstrip_slash s) as [|d r]; [|discriminate].
  destruct (Ascii.eqb c "/"%char); [|discriminate]. intros _. now apply IH.
Qed.

End SlashFacts.

(** X4. The endpoint without its final slashes: [rstrip] removes nothing
    but slashes, from the end, and leaves a text that does not end with
    one. *)
Theorem rstrip_slash_removes_final_slashes (s : string) :
  ends_with_slash (PyStr.rstrip_slash s) = false
  /\ exists slashes,
       s = PyStr.rstrip_slash s +:+ slashes /\ only_slashes slashes = true.
Proof.
  induction s as [|c s [IHend (slashes & IHs & IHonly)]].
  - split; [reflexivity|]. now exists EmptyString.
  - cbn [PyStr.rstrip_slash]. destruct (PyStr.rstrip_slash s) as [|d r] eqn:E.
    + destruct (Ascii.eqb c "/"%char) eqn:Ec.
      * split; [reflexivity|]. exists (String c s). split; [reflexivity|].
        cbn [only_slashes]. rewrite Ec. now apply rstrip_slash_empty.
      * split; [simpl; exact Ec|]. exists s. split; [reflexivity|].
        now apply rstrip_slash_empty.
    + split; [exact IHend|]. exists slashes. split; [|exact IHonly].
      simpl. simpl in IHs. now rewrite <- IHs.
Qed.

(** ** More on the backup path *)

Section BackupFacts.

Import Path.

Lemma split_name_no_slash (p : string) : has_char slash (snd (split_name p)) = false.
Proof.
  induction p as [|c r IH]; [reflexivity|]. cbn [split_name].
  destruct (has_char slash (String c r)) eqn:E; [exact IH|exact E].
Qed.

Lemma cut_last_dot_none (s : string) :
  has_char dot s = false -> cut_last_dot s = None.
Proof.
  induction s as [|c s IH]; [reflexivity|]. simpl.
  intros [Hc Hs]%orb_false_elim. now rewrite IH, Hc.
Qed.

Lemma cut_last_dot_app (a b : string) :
  has_char dot b = false ->
  cut_last_dot (a +:+ String dot b) = Some (a, String dot b).
Proof.
  intros Hb. induction a as [|c a IH]; simpl.
  - now rewrite cut_last_dot_none.
  - now rewrite IH.
Qed.

Lemma split_name_plain (name : string) :
  has_char slash name = false -> split_name name = (EmptyString, name).
Proof. destruct name as [|c r]; [reflexivity|]. intros H. cbn [split_name]. now rewrite H. Qed.

Lemma split_name_dir (dir name : string) :
  has_char slash name = false ->
  split_name (dir +:+ String slash name) = (dir +:+ String slash EmptyString, name).
Proof.
  intros Hname. induction dir as [|c dir IH].
  - simpl. now rewrite split_name_plain.
  - change (String c dir +:+ String slash name) with (String c (dir +:+ String slash name)).
    cbn [split_name]. rewrite IH.
    cbn [has_char]. rewrite has_char_app. simpl. now rewrite orb_true_r, orb_true_r.
Qed.

End BackupFacts.

Section SuffixFacts.

Import Path.

Lemma ends_with_slash_cons (c : ascii) (d : string) :
  ends_with_slash d = true -> ends_with_slash (String c d) = true.
Proof. destruct d; [discriminate|]. now intros H. Qed.

Lemma split_name_no_dir (p : string) :
  fst (split_name p) = EmptyString -> has_char slash p = false.
Proof.
  destruct p as [|c r]; [reflexivity|]. cbn [split_name].
  destruct (has_char slash (String c r)); [discriminate|reflexivity].
Qed.

(** The directory part of a path is empty or ends with the slash. *)
Lemma split_name_dir_shape (p : string) :
  fst (split_name p) = EmptyString \/ ends_with_slash (fst (split_name p)) = true.
Proof.
  induction p as [|c r IH]; [now left|]. cbn [split_name].
  destruct (has_char slash (String c r)) eqn:E; [|now left]. right. cbn [fst].
  destruct IH as [IH|IH].
  - rewrite IH. apply split_name_no_dir in IH. simpl in E. rewrite IH, orb_false_r in E.
    exact E.
  - now apply ends_with_slash_cons.
Qed.

(** The stem and the suffix of a name are those of pathlib. *)
Lemma stem_suffix_last (name : string) :
  last_suffix name (fst (stem_suffix name)) (snd (stem_suffix name)).
Proof.
  unfold last_suffix, stem_suffix.
  assert (Hno : forall front ext,
             name = front +:+ String dot ext -> has_char dot ext = false ->
             cut_last_dot name = Some (front, String dot ext)).
  { intros front ext -> Hext. now apply cut_last_dot_app. }
  destruct (cut_last_dot name) as [[a b]|] eqn:E.
  - apply cut_last_dot_spec in E as [Hname (ext & -> & Hext)].
    destruct (String.eqb_spec a "") as [->|Ha]; cbn [negb andb fst snd].
    + split; [now rewrite str_app_empty_r|]. right. split; [reflexivity|].
      intros front ext' Hfront Hext'. specialize (Hno _ _ Hfront Hext').
      injection Hno as <- _. now left.
    + destruct (1 <? String.length (String dot ext)) eqn:Hlen; cbn [fst snd].
      * split; [exact Hname|]. left. exists ext. repeat split; try assumption.
        intros ->. discriminate.
      * split; [now rewrite str_app_empty_r|]. right. split; [reflexivity|].
        intros front ext' Hfront Hext'. specialize (Hno _ _ Hfront Hext').
        injection Hno as _ <-. right. now destruct ext.
  - cbn [fst snd]. split; [now rewrite str_app_empty_r|]. right. split; [reflexivity|].
    intros front ext Hfront Hext. now specialize (Hno _ _ Hfront Hext).
Qed.

End SuffixFacts.

(** X5. The backup path: the path of the report with the last suffix of its
    name replaced by [.xml.bak]. The name is what follows the last ["/"],
    so the backup is in the directory of the report; the suffix is what
    begins at the last dot of the name, when that dot is neither its first
    nor its last character, and a name without such a dot gets [.xml.bak]
    added. The backup path is never the path of the report itself. *)
Theorem backup_path_shape (xml_path backup_path : string) :
  Path.with_suffix xml_path ".xml.bak" = Return backup_path ->
  backup_path <> xml_path
  /\ exists dir stem suffix,
       xml_path = dir +:+ stem +:+ suffix
       /\ backup_path = dir +:+ stem +:+ ".xml.bak"
       /\ (dir = EmptyString \/ ends_with_slash dir = true)
       /\ Path.has_char "/"%char (stem +:+ suffix) = false
       /\ stem +:+ suffix <> EmptyString
       /\ last_suffix (stem +:+ suffix) stem suffix.
Proof.
  intros H. split; [exact (with_suffix_fresh _ _ H)|].
  apply with_suffix_returns in H as (Hname & _ & ->).
  pose proof (split_name_app xml_path) as Hp.
  pose proof (split_name_no_slash xml_path) as Hslash.
  pose proof (split_name_dir_shape xml_path) as Hdir.
  destruct (Path.split_name xml_path) as [dir name]. cbn [fst snd] in *.
  pose proof (stem_suffix_last name) as Hlast.
  destruct (Path.stem_suffix name) as [stem suffix]. cbn [fst snd] in *.
  pose proof (proj1 Hlast) as Hsplit. subst name.
  exists dir, stem, suffix. repeat split; try assumption; apply Hlast.
Qed.

Lemma backup_path_shape_witness :
  Path.with_suffix "out/junit/report.xml" ".xml.bak" = Return "out/junit/report.xml.bak"
  /\ "out/junit/report.xml.bak" <> "out/junit/report.xml".
Proof.
  assert (H : Path.with_suffix "out/junit/report.xml" ".xml.bak"
              = Return "out/junit/report.xml.bak") by reflexivity.
  split; [exact H|]. exact (proj1 (backup_path_shape _ _ H)).
Defined.

Ltac too_long H :=
  apply (f_equal String.length) in H;
  rewrite ?str_length_app in H; cbn [String.length] in H;
  rewrite ?str_length_app in H; cbn [String.length] in H; lia.

(** X6. For a report whose name is [stem.xml], the backup is the path of
    the report followed by [.bak]; for a report whose name has no dot, it is
    the path followed by [.xml.bak]. The name is the path itself, or what
    follows the last ["/"]. *)
Theorem backup_path_of_xml_report (dir stem : string) :
  stem <> EmptyString ->
  Path.has_char "/"%char stem = false ->
  Path.with_suffix (stem +:+ ".xml") ".xml.bak" = Return (stem +:+ ".xml" +:+ ".bak")
  /\ Path.with_suffix (dir +:+ "/" +:+ stem +:+ ".xml") ".xml.bak"
     = Return (dir +:+ "/" +:+ stem +:+ ".xml" +:+ ".bak")
  /\ (Path.has_char "."%char stem = false ->
      Path.with_suffix (dir +:+ "/" +:+ stem) ".xml.bak"
      = Return (dir +:+ "/" +:+ stem +:+ ".xml.bak")).
Proof.
  intros Hstem Hslash.
  assert (Hname : Path.has_char "/"%char (stem +:+ ".xml") = false)
    by now rewrite has_char_app, Hslash.
  assert (Hne : forall rest, stem +:+ rest <> EmptyString).
  { intros rest. destruct stem; [contradiction|discriminate]. }
  assert (Hcut : Path.stem_suffix (stem +:+ ".xml") = (stem, ".xml")).
  { unfold Path.stem_suffix.
    change (stem +:+ ".xml") with (stem +:+ String Path.dot "xml").
    rewrite (cut_last_dot_app stem "xml") by reflexivity.
    destruct stem; [contradiction|reflexivity]. }
  split; [|split].
  - rewrite with_suffix_named; rewrite ?split_name_plain by exact Hname;
      cbn [fst snd]; [now rewrite Hcut|apply Hne|].
    intros Heq. too_long Heq.
  - change (dir +:+ "/" +:+ stem +:+ ".xml")
      with (dir +:+ String Path.slash (stem +:+ ".xml")).
    rewrite with_suffix_named; rewrite ?split_name_dir by exact Hname;
      cbn [fst snd]; [rewrite Hcut; cbn [fst]; now rewrite !str_app_assoc|apply Hne|].
    intros Heq. too_long Heq.
  - intros Hdot.
    change (dir +:+ "/" +:+ stem) with (dir +:+ String Path.slash stem).
    rewrite with_suffix_named; rewrite ?split_name_dir by exact Hslash;
      cbn [fst snd].
    + unfold Path.stem_suffix. rewrite cut_last_dot_none by exact Hdot. cbn [fst].
      now rewrite !str_app_assoc.
    + exact Hstem.
    + intros Heq. destruct stem; [contradiction|]. too_long Heq.
Qed.

Lemma backup_path_of_xml_report_witness :
  "report" <> EmptyString
  /\ Path.has_char "/"%char "report" = false
  /\ Path.with_suffix ("out" +:+ "/" +:+ "report" +:+ ".xml") ".xml.bak"
     = Return ("out" +:+ "/" +:+ "report" +:+ ".xml" +:+ ".bak").
Proof.
  assert (H1 : "report" <> EmptyString) by discriminate.
  assert (H2 : Path.has_char "/"%char "report" = false) by reflexivity.
  split; [exact H1|]. split; [exact H2|].
  exact (proj1 (proj2 (backup_path_of_xml_report "out" "report" H1 H2))).
Defined.

(** ** More on the text and on the injection *)

Section TextFacts.

Variable container_str : value -> string.

Lemma join_first (sep p : string) (rest : list string) :
  PyStr.starts_with p (PyStr.join sep (p :: rest)).
Proof.
  destruct rest as [|q rest]; [apply starts_with_refl|].
  now exists (sep +:+ PyStr.join sep (q :: rest)).
Qed.

Lemma join_not_empty (sep : string) (c : ascii) (p : string) (rest : list string) :
  PyStr.join sep (String c p :: rest) <> EmptyString.
Proof. now destruct rest. Qed.

Lemma filled_dict_items (v : value) :
  filled_dict v = true -> exists items, v = VDict items.
Proof. destruct v; try (unfold filled_dict; simpl; rewrite ?andb_false_r; discriminate). eauto. Qed.

(** The parts of the text, by what the analysis holds. *)
Lemma format_analysis_text_parts (items : list (string * value)) :
  format_analysis_text container_str (VDict items)
  = Return
      (PyStr.join nl
         ((if truthy (field items "classification" (VStr ""))
           then ["Classification: "
                 +:+ py_str container_str (field items "classification" (VStr ""))]
           else [])
          ++ (if truthy (field items "details" (VStr ""))
              then [nl +:+ py_str container_str (field items "details" (VStr ""))]
              else [])
          ++ match field items "code_fix" VNone with
             | VDict (item :: more) =>
                 [nl +:+ "Code Fix:";
                  "  File: " +:+ py_str container_str (field (item :: more) "file" (VStr ""));
                  "  Line: " +:+ py_str container_str (field (item :: more) "line" (VStr ""));
                  "  Change: "
                  +:+ py_str container_str (field (item :: more) "change" (VStr ""))]
             | _ => []
             end
          ++ match field items "product_bug_report" VNone with
             | VDict (item :: more) =>
                 [nl +:+ "Product Bug:";
                  "  Title: " +:+ py_str container_str (field (item :: more) "title" (VStr ""));
                  "  Severity: "
                  +:+ py_str container_str (field (item :: more) "severity" (VStr ""));
                  "  Component: "
                  +:+ py_str container_str (field (item :: more) "component" (VStr ""));
                  "  Description: "
                  +:+ py_str container_str (field (item :: more) "description" (VStr ""))]
             | _ => []
             end)).
Proof.
  unfold format_analysis_text, field. cbn [get bind].
  destruct (truthy (from_option id (VStr "") (assoc "classification" items)));
    destruct (truthy (from_option id (VStr "") (assoc "details" items)));
    destruct (from_option id VNone (assoc "code_fix" items)) as [| | | | | |[|? ?]];
    cbn [truthy is_dict andb bind get]; rewrite ?andb_false_r; cbn [bind];
    destruct (from_option id VNone (assoc "product_bug_report" items))
      as [| | | | | |[|? ?]];
    cbn [truthy is_dict andb bind get]; rewrite ?andb_false_r; cbn [bind app];
    reflexivity.
Qed.

End TextFacts.

(** When the text for an analysis is empty. *)
Lemma format_analysis_text_empty (container_str : value -> string) (analysis : value) :
  match analysis with
  | VDict items =>
      exists new_text,
        format_analysis_text container_str analysis = Return new_text
        /\ (new_text = EmptyString <-> says_nothing items = true)
  | _ =>
      format_analysis_text container_str analysis
      = Raise (raise_of AttributeError "object has no attribute 'get'")
  end.
Proof.
  destruct analysis as [| | | | | |items]; try reflexivity.
  rewrite format_analysis_text_parts. eexists. split; [reflexivity|].
  unfold says_nothing, filled_dict.
  destruct (truthy (field items "classification" (VStr ""))).
  { split; [intros H; now apply join_not_empty in H|discriminate]. }
  destruct (truthy (field items "details" (VStr ""))).
  { split; [intros H; now apply join_not_empty in H|discriminate]. }
  destruct (field items "code_fix" VNone) as [| | | | | |[|? ?]];
    cbn [truthy is_dict andb negb app]; rewrite ?andb_false_r; cbn [negb andb];
    try (split; [intros H; now apply join_not_empty in H|discriminate]).
  all: destruct (field items "product_bug_report" VNone) as [| | | | | |[|? ?]];
    cbn [truthy is_dict andb negb app]; rewrite ?andb_false_r; cbn [negb andb];
    try (split; [intros H; now apply join_not_empty in H|discriminate]);
    split; reflexivity.
Qed.

(** X7. The text for an analysis: a dict always gets one, anything else
    raises. The text is empty exactly when the analysis has no
    classification, no details, no code fix and no bug report (missing, or
    empty), which is when the injection leaves [system-out] alone. *)
Theorem text_is_empty_iff (container_str : value -> string) (analysis : value) :
  match analysis with
  | VDict items =>
      exists new_text,
        format_analysis_text container_str analysis = Return new_text
        /\ (new_text = EmptyString <-> says_nothing items = true)
  | _ =>
      format_analysis_text container_str analysis
      = Raise (raise_of AttributeError "object has no attribute 'get'")
  end.
Proof.
  exact (format_analysis_text_empty container_str analysis).
Qed.

(** X8. With a classification, the text begins with [Classification: ] and
    the [str] of the classification, whatever else the analysis holds. *)
Theorem text_begins_with_classification (container_str : value -> string)
    (items : list (string * value)) (new_text : string) :
  truthy (field items "classification" (VStr "")) = true ->
  format_analysis_text container_str (VDict items) = Return new_text ->
  PyStr.starts_with
    ("Classification: "
     +:+ py_str container_str (field items "classification" (VStr "")))
    new_text.
Proof.
  intros Hc Hf. rewrite format_analysis_text_parts, Hc in Hf.
  apply (f_equal (returned EmptyString)) in Hf. cbn [returned] in Hf. subst new_text.
  apply join_first.
Qed.

Lemma text_begins_with_classification_witness :
  truthy (field [("classification", VStr "CODE ISSUE"); ("details", VStr "missing import")]
            "classification" (VStr "")) = true
  /\ PyStr.starts_with "Classification: CODE ISSUE"
       ("Classification: CODE ISSUE" +:+ nl +:+ nl +:+ "missing import").
Proof.
  split; [reflexivity|].
  apply (text_begins_with_classification no_containers
           [("classification", VStr "CODE ISSUE"); ("details", VStr "missing import")]);
    reflexivity.
Defined.

Section InjectionFacts.

Variable container_str : value -> string.

Ltac flatten_properties :=
  rewrite ?add_property_extend, ?extend_extend, ?children_extend;
  simpl children; rewrite ?app_nil_l, ?app_nil_r, <- ?app_assoc.

(** The properties one injection makes, by what the analysis holds. *)
Lemma injected_parts (items : list (string * value)) :
  injected container_str (VDict items)
  = let* affected :=
      affected_properties container_str (field items "affected_tests" (VList [])) in
    Return
      (property_for container_str "ai_classification"
         (field items "classification" (VStr ""))
       ++ property_for container_str "ai_details" (field items "details" (VStr ""))
       ++ affected
       ++ code_fix_properties container_str (field items "code_fix" VNone)
       ++ bug_report_properties container_str (field items "product_bug_report" VNone)).
Proof.
  unfold injected, inject_properties, affected_properties, field. cbn [get bind].
  destruct (truthy (from_option id (VList []) (assoc "affected_tests" items)));
    [destruct (join_value ", " _); [|reflexivity]|]; cbn [bind];
    destruct (from_option id VNone (assoc "code_fix" items)) as [| | | | | |[|? ?]];
    cbn [truthy is_dict andb bind get code_fix_properties]; rewrite ?andb_false_r;
    cbn [bind];
    destruct (from_option id VNone (assoc "product_bug_report" items))
      as [| | | | | |[|? ?]];
    cbn [truthy is_dict andb bind get bug_report_properties]; rewrite ?andb_false_r;
    cbn [bind]; unfold field; flatten_properties; reflexivity.
Qed.

Lemma strings_of_returns (items : list value) :
  returns (strings_of items) = forallb is_str items.
Proof.
  induction items as [|[| | | |s| |] items IH]; try reflexivity.
  cbn [strings_of forallb is_str andb]. rewrite <- IH. now destruct (strings_of items).
Qed.

Lemma strings_of_strs (l : list string) : strings_of (VStr <$> l) = Return l.
Proof. induction l as [|s l IH]; [reflexivity|]. cbn. now rewrite IH. Qed.

Lemma join_value_returns (sep : string) (v : value) :
  returns (join_value sep v) = joinable v.
Proof.
  unfold join_value. destruct v as [| | | |s|items|items]; try reflexivity.
  - cbn [iterate bind]. now rewrite strings_of_strs.
  - cbn [iterate bind joinable]. rewrite <- strings_of_returns.
    now destruct (strings_of items).
  - cbn [iterate bind].
    replace ((fun kv : string * value => VStr (fst kv)) <$> items)
      with (VStr <$> (fst <$> items)) by (now rewrite <- list_fmap_compose).
    now rewrite strings_of_strs.
Qed.

Lemma injected_returns (analysis : value) :
  returns (injected container_str analysis) = injectable analysis.
Proof.
  destruct analysis as [| | | | | |items]; try reflexivity.
  rewrite injected_parts. unfold affected_properties, injectable.
  destruct (truthy (field items "affected_tests" (VList []))); [|reflexivity].
  cbn [negb orb]. rewrite <- (join_value_returns ", ").
  now destruct (join_value ", " _).
Qed.

Lemma put_in_same (name : string) (cs : list element) (c : element) :
  find_in name cs = Some c -> put_in name c cs = cs.
Proof.
  induction cs as [|d cs IH]; [discriminate|]. simpl.
  destruct (String.eqb (tag d) name); [now intros [= ->]|].
  intros H. now rewrite IH.
Qed.

Lemma names_of_property_for (name : string) (v : value) :
  names_of (property_for container_str name v) `sublist_of` [name].
Proof.
  unfold property_for. destruct (truthy v); [reflexivity|apply sublist_nil_l].
Qed.

End InjectionFacts.

(** When an injection returns. *)
Lemma inject_analysis_returns (container_str : value -> string)
    (testcase : element) (analysis : value) :
  returns (inject_analysis container_str testcase analysis) = injectable analysis.
Proof.
  unfold inject_analysis. rewrite inject_properties_extend.
  rewrite <- (injected_returns container_str).
  pose proof (format_analysis_text_empty container_str analysis) as Htext.
  destruct analysis as [| | | | | |items]; try reflexivity.
  destruct Htext as (new_text & -> & _).
  now destruct (injected container_str (VDict items)).
Qed.

(** X9. Whether an injection returns or raises depends on the analysis
    alone, never on the testcase: it returns exactly for a dict whose
    [affected_tests] is missing or empty, or is a list of str, a str or a
    dict. Nothing else in the analysis can make it fail. *)
Theorem injection_returns_iff (container_str : value -> string)
    (testcase : element) (analysis : value) :
  returns (inject_analysis container_str testcase analysis) = injectable analysis.
Proof.
  exact (inject_analysis_returns container_str testcase analysis).
Qed.

(** X10. The properties of one injection have names among the ten [ai_]
    names, in the order of the calls, each name at most once. *)
Theorem injected_names_in_order (container_str : value -> string)
    (analysis : value) (added : list element) :
  injected container_str analysis = Return added ->
  names_of added `sublist_of` ai_names /\ NoDup (names_of added).
Proof.
  intros H.
  assert (Hsub : names_of added `sublist_of` ai_names).
  { destruct analysis as [| | | | | |items]; try discriminate.
    rewrite injected_parts in H. unfold affected_properties in H.
    assert (exists affected,
               names_of affected `sublist_of` ["ai_affected_tests"]
               /\ added
                  = property_for container_str "ai_classification"
                      (field items "classification" (VStr ""))
                    ++ property_for container_str "ai_details"
                         (field items "details" (VStr ""))
                    ++ affected
                    ++ code_fix_properties container_str (field items "code_fix" VNone)
                    ++ bug_report_properties container_str
                         (field items "product_bug_report" VNone))
      as (affected & Haff & ->).
    { destruct (truthy (field items "affected_tests" (VList []))).
      - destruct (join_value ", " _) as [joined|]; [|discriminate].
        cbn [bind] in H. injection H as <-. eexists. split; [|reflexivity].
        apply names_of_property_for.
      - cbn [bind] in H. injection H as <-. exists []. split; [|reflexivity].
        apply sublist_nil_l. }
    unfold names_of in *. rewrite !fmap_app.
    change ai_names
      with (["ai_classification"] ++ ["ai_details"] ++ ["ai_affected_tests"]
            ++ ["ai_code_fix_file"; "ai_code_fix_line"; "ai_code_fix_change"]
            ++ ["ai_bug_title"; "ai_bug_severity"; "ai_bug_component";
                "ai_bug_description"]).
    repeat apply sublist_app; try apply names_of_property_for; try exact Haff.
    - unfold code_fix_properties.
      destruct (field items "code_fix" VNone) as [| | | | | |[|? ?]];
        try apply sublist_nil_l.
      rewrite !fmap_app.
      change ["ai_code_fix_file"; "ai_code_fix_line"; "ai_code_fix_change"]
        with (["ai_code_fix_file"] ++ ["ai_code_fix_line"] ++ ["ai_code_fix_change"]).
      repeat apply sublist_app; apply names_of_property_for.
    - unfold bug_report_properties.
      destruct (field items "product_bug_report" VNone) as [| | | | | |[|? ?]];
        try apply sublist_nil_l.
      rewrite !fmap_app.
      change ["ai_bug_title"; "ai_bug_severity"; "ai_bug_component"; "ai_bug_description"]
        with (["ai_bug_title"] ++ ["ai_bug_severity"] ++ ["ai_bug_component"]
              ++ ["ai_bug_description"]).
      repeat apply sublist_app; apply names_of_property_for. }
  split; [exact Hsub|].
  eapply sublist_NoDup; [|exact Hsub].
  apply (bool_decide_unpack _). reflexivity.
Qed.

Lemma injected_names_in_order_witness :
  injected no_containers sample_analysis
  = Return [property "ai_classification" "CODE ISSUE";
            property "ai_details" "missing import"]
  /\ names_of [property "ai_classification" "CODE ISSUE";
               property "ai_details" "missing import"] `sublist_of` ai_names.
Proof.
  assert (H : injected no_containers sample_analysis
              = Return [property "ai_classification" "CODE ISSUE";
                        property "ai_details" "missing import"]) by reflexivity.
  split; [exact H|].
  exact (proj1 (injected_names_in_order no_containers sample_analysis _ H)).
Defined.

(** X11. An analysis that is a dict with nothing to inject (no
    classification, details, affected tests, code fix or bug report) still
    leaves a mark: a testcase without a [properties] child gets an empty
    one; a testcase with one is returned as it is. No [system-out] is made
    or changed. *)
Theorem empty_analysis_adds_empty_properties (container_str : value -> string)
    (testcase : element) (items : list (string * value)) :
  says_nothing items = true ->
  truthy (field items "affected_tests" (VList [])) = false ->
  inject_analysis container_str testcase (VDict items)
  = Return (match find "properties" testcase with
            | Some _ => testcase
            | None => sub_element testcase (new_element "properties")
            end).
Proof.
  intros Hnothing Haffected.
  pose proof (format_analysis_text_empty container_str (VDict items)) as (new_text & Htext & Hiff).
  apply Hiff in Hnothing as Hempty. subst new_text.
  unfold inject_analysis. rewrite inject_properties_extend, injected_parts, Htext.
  unfold affected_properties. rewrite Haffected. cbn [bind].
  unfold says_nothing, filled_dict in Hnothing.
  apply andb_prop in Hnothing as [[[Hc Hd]%andb_prop Hf]%andb_prop Hb].
  apply negb_true_iff in Hc, Hd, Hf, Hb.
  unfold property_for. rewrite Hc, Hd.
  replace (code_fix_properties container_str (field items "code_fix" VNone))
    with (@nil element)
    by (destruct (field items "code_fix" VNone) as [| | | | | |[|? ?]];
        try reflexivity; discriminate).
  replace (bug_report_properties container_str (field items "product_bug_report" VNone))
    with (@nil element)
    by (destruct (field items "product_bug_report" VNone) as [| | | | | |[|? ?]];
        try reflexivity; discriminate).
  cbn [app]. rewrite extend_nil. unfold inject_system_out. cbn [String.eqb negb].
  f_equal. unfold find, put_child.
  destruct (find_in "properties" (children testcase)) as [p|] eqn:E; cbn [from_option id].
  - rewrite put_in_same by exact E. apply set_children_same.
  - unfold sub_element. f_equal. clear -E.
    induction (children testcase) as [|d cs IH]; [reflexivity|].
    simpl in *. destruct (String.eqb (tag d) "properties"); [discriminate|].
    now rewrite IH.
Qed.

Lemma empty_analysis_adds_empty_properties_witness :
  says_nothing [("confidence", VInt 3)] = true
  /\ truthy (field [("confidence", VInt 3)] "affected_tests" (VList [])) = false
  /\ inject_analysis no_containers sample_testcase (VDict [("confidence", VInt 3)])
     = Return (sub_element sample_testcase (new_element "properties")).
Proof.
  split; [reflexivity|]. split; [reflexivity|].
  exact (empty_analysis_adds_empty_properties no_containers sample_testcase
           [("confidence", VInt 3)] eq_refl eq_refl).
Defined.

(** ** More on the loop over the tree *)

Section LoopFacts.

Variable container_str : value -> string.

Lemma visit_all_same (visit : element -> option (outcome element)) (cs : list element) :
  (forall c, In c cs -> visit c = Some (Return c)) ->
  visit_all visit cs = Some (Return cs).
Proof.
  induction cs as [|c cs IH]; [reflexivity|]. intros H. simpl.
  rewrite (H c) by now left. rewrite IH; [reflexivity|]. intros d Hd. apply H. now right.
Qed.

Lemma iter_children (e c : element) : In c (children e) -> incl (iter c) (iter e).
Proof.
  destruct e as [name attrs t cs tl]. simpl. intros Hc d Hd. right.
  apply in_flat_map. eauto.
Qed.

Lemma iter_self (e : element) : In e (iter e).
Proof. destruct e. now left. Qed.

Lemma iter_testcases_unmatched (analysis_map : gmap (string * string) value)
    (fuel : nat) (e : element) :
  need e <= fuel ->
  (forall d, In d (iter e) -> String.eqb (tag d) "testcase" = true ->
             analysis_map !! key_of d = None) ->
  iter_testcases container_str fuel analysis_map e = Some (Return e).
Proof.
  revert e. induction fuel as [|fuel IH]; intros e Hfuel Hnone.
  - pose proof (need_headroom e). lia.
  - cbn [iter_testcases].
    assert ((if String.eqb (tag e) "testcase"
             then inject_if_known container_str analysis_map e else Return e)
            = Return e) as ->.
    { destruct (String.eqb (tag e) "testcase") eqn:Htag; [|reflexivity].
      unfold inject_if_known. fold (key_of e).
      now rewrite (Hnone e (iter_self e) Htag). }
    rewrite visit_all_same; [now rewrite set_children_same|].
    intros c Hc. apply IH.
    + apply need_child in Hc. lia.
    + intros d Hd. apply Hnone. now apply (iter_children e c).
Qed.

Lemma visit_all_returns (visit : element -> option (outcome element)) (cs : list element) :
  (forall c, In c cs -> exists c', visit c = Some (Return c')) ->
  exists cs', visit_all visit cs = Some (Return cs').
Proof.
  induction cs as [|c cs IH]; [now exists []|]. intros H. simpl.
  destruct (H c) as [c' ->]; [now left|].
  destruct IH as [cs' ->]; [intros d Hd; apply H; now right|]. eauto.
Qed.

Lemma iter_testcases_returns (analysis_map : gmap (string * string) value)
    (fuel : nat) (e : element) :
  need e <= fuel ->
  (forall key analysis, analysis_map !! key = Some analysis ->
                        injectable analysis = true) ->
  exists e', iter_testcases container_str fuel analysis_map e = Some (Return e').
Proof.
  intros Hfuel Hmap. revert e Hfuel. induction fuel as [|fuel IH]; intros e Hfuel.
  - pose proof (need_headroom e). lia.
  - cbn [iter_testcases].
    destruct (String.eqb (tag e) "testcase") eqn:Htag.
    + unfold inject_if_known.
      destruct (analysis_map !! _) as [analysis|] eqn:Hkey.
      * pose proof (inject_analysis_returns container_str e analysis) as Hret.
        rewrite (Hmap _ _ Hkey) in Hret.
        destruct (inject_analysis container_str e analysis) as [e1|] eqn:Hinj;
          [|discriminate].
        destruct (visit_all_returns (iter_testcases container_str fuel analysis_map)
                    (children e1)) as [cs' ->]; [|eauto].
        intros c Hc. apply IH.
        pose proof (inject_analysis_need container_str e e1 analysis c Htag Hinj Hc). lia.
      * destruct (visit_all_returns (iter_testcases container_str fuel analysis_map)
                    (children e)) as [cs' ->]; [|eauto].
        intros c Hc. apply IH. apply need_child in Hc. lia.
    + destruct (visit_all_returns (iter_testcases container_str fuel analysis_map)
                  (children e)) as [cs' ->]; [|eauto].
      intros c Hc. apply IH. apply need_child in Hc. lia.
Qed.

End LoopFacts.

(** X12. A document in which no testcase has its key in the index comes
    out of the loop as it went in: not one element or text is changed. This
    is the silent outcome of every mismatch between the identifiers of the
    response and the attributes of the report. *)
Theorem unmatched_document_is_unchanged (container_str : value -> string)
    (analysis_map : gmap (string * string) value) (root : element) :
  (forall testcase,
      In testcase (iter root) -> String.eqb (tag testcase) "testcase" = true ->
      analysis_map !! key_of testcase = None) ->
  enrich_tree container_str analysis_map root = Return root.
Proof.
  intros H. unfold enrich_tree.
  now rewrite (iter_testcases_unmatched container_str analysis_map (need root) root).
Qed.

Lemma unmatched_document_is_unchanged_witness :
  (forall testcase,
      In testcase (iter sample_document) ->
      String.eqb (tag testcase) "testcase" = true ->
      ({[ ("tests.test_foo", "test_bar") := sample_analysis ]}
         : gmap (string * string) value) !! key_of testcase = None)
  /\ enrich_tree no_containers {[ ("tests.test_foo", "test_bar") := sample_analysis ]}
       sample_document
     = Return sample_document.
Proof.
  assert (H : forall testcase,
             In testcase (iter sample_document) ->
             String.eqb (tag testcase) "testcase" = true ->
             ({[ ("tests.test_foo", "test_bar") := sample_analysis ]}
                : gmap (string * string) value) !! key_of testcase = None).
  { intros testcase Hin Htag. simpl in Hin.
    destruct Hin as [<-|[<-|[<-|[<-|[<-|[]]]]]]; try discriminate; reflexivity. }
  split; [exact H|].
  exact (unmatched_document_is_unchanged no_containers _ sample_document H).
Defined.

(** X13. When every analysis of the index is one the injection accepts,
    the loop over the document returns, whatever the document: the
    injection is the only step of the loop that can raise. *)
Theorem loop_returns_on_injectable_index (container_str : value -> string)
    (analysis_map : gmap (string * string) value) (root : element) :
  (forall key analysis, analysis_map !! key = Some analysis ->
                        injectable analysis = true) ->
  exists root', enrich_tree container_str analysis_map root = Return root'.
Proof.
  intros H. unfold enrich_tree.
  destruct (iter_testcases_returns container_str analysis_map (need root) root)
    as [root' ->]; [lia|exact H|]. eauto.
Qed.

Lemma loop_returns_on_injectable_index_witness :
  (forall key analysis, sample_index !! key = Some analysis ->
                        injectable analysis = true)
  /\ exists root', enrich_tree no_containers sample_index sample_document = Return root'.
Proof.
  assert (H : forall key analysis, sample_index !! key = Some analysis ->
                                   injectable analysis = true).
  { intros key analysis Hk. unfold sample_index in Hk.
    apply lookup_singleton_Some in Hk as [_ <-]. reflexivity. }
  split; [exact H|].
  exact (loop_returns_on_injectable_index no_containers sample_index sample_document H).
Defined.

(** ** The scenario of the specification *)

Section ScenarioFacts.

Variable container_str : value -> string.
Variable analysis_map : gmap (string * string) value.

Local Abbreviation walked fuel :=
  (fun c c' => iter_testcases container_str fuel analysis_map c = Some (Return c')).






















End ScenarioFacts.


(** ** More on the index *)

(** X14. Where the bindings of the index come from: a key of the index is
    the translation of the test name of a complete entry of the response,
    bound to the analysis of that entry. When two entries translate to the
    same key the later one wins: the last entry of the response is always in
    the index with its own analysis. *)
Theorem index_bindings_come_from_entries (entries : list value)
    (index : gmap (string * string) value) :
  build_analysis_map entries ∅ = Return index ->
  (forall key analysis,
      index !! key = Some analysis ->
      exists entry nodeid,
        In entry entries /\ complete entry = Some (nodeid, analysis)
        /\ nodeid_to_classname_and_name nodeid = key)
  /\ (forall front entry nodeid analysis,
        entries = front ++ [entry] ->
        complete entry = Some (nodeid, analysis) ->
        index !! nodeid_to_classname_and_name nodeid = Some analysis).
Proof.
  intros Hbuild. split.
  - assert (Hgen : forall entries start index,
               build_analysis_map entries start = Return index ->
               forall key analysis,
                 index !! key = Some analysis ->
                 start !! key = Some analysis
                 \/ exists entry nodeid,
                      In entry entries /\ complete entry = Some (nodeid, analysis)
                      /\ nodeid_to_classname_and_name nodeid = key).
    { clear. induction entries as [|entry rest IH]; intros start index Hb key analysis Hk.
      - injection Hb as <-. now left.
      - cbn [build_analysis_map] in Hb.
        destruct entry as [| | | | | |items]; try discriminate.
        cbn [get bind] in Hb.
        destruct (assoc "test_name" items) as [test_name|] eqn:Et; cbn in Hb.
        2: { destruct (IH _ _ Hb _ _ Hk) as [?|(e & n & ? & ? & ?)]; [now left|].
             right. exists e, n. split; [now right|auto]. }
        destruct (assoc "analysis" items) as [an|] eqn:Ea; cbn in Hb.
        2: { rewrite andb_false_r in Hb. cbn in Hb.
             destruct (IH _ _ Hb _ _ Hk) as [?|(e & n & ? & ? & ?)]; [now left|].
             right. exists e, n. split; [now right|auto]. }
        destruct (truthy test_name && truthy an) eqn:Etruthy; cbn in Hb.
        2: { destruct (IH _ _ Hb _ _ Hk) as [?|(e & n & ? & ? & ?)]; [now left|].
             right. exists e, n. split; [now right|auto]. }
        destruct test_name as [| | | |s| |]; try discriminate. cbn in Hb.
        destruct (IH _ _ Hb _ _ Hk) as [Hstart|(e & n & ? & ? & ?)].
        + destruct (decide (nodeid_to_classname_and_name s = key)) as [Heq|Hne].
          * rewrite Heq, lookup_insert_eq in Hstart. injection Hstart as ->.
            right. exists (VDict items), s. split; [now left|]. split; [|exact Heq].
            cbn [complete]. rewrite Et, Ea. cbn in Etruthy. now rewrite Etruthy.
          * rewrite lookup_insert_ne in Hstart by exact Hne. now left.
        + right. exists e, n. split; [now right|auto]. }
    intros key analysis Hk. destruct (Hgen _ _ _ Hbuild _ _ Hk) as [Hempty|H]; [|exact H].
    now rewrite lookup_empty in Hempty.
  - intros front entry nodeid analysis -> Hcomplete.
    rewrite build_analysis_map_app in Hbuild.
    destruct (build_analysis_map front ∅) as [start|]; [|discriminate].
    cbn [bind] in Hbuild. rewrite (build_complete _ _ _ _ _ Hcomplete) in Hbuild.
    injection Hbuild as <-. apply lookup_insert_eq.
Qed.

Lemma index_bindings_come_from_entries_witness :
  build_analysis_map [sample_entry] ∅ = Return sample_index
  /\ sample_index !! nodeid_to_classname_and_name "tests/test_foo.py::TestClass::test_bar"
     = Some sample_analysis.
Proof.
  assert (H : build_analysis_map [sample_entry] ∅ = Return sample_index) by reflexivity.
  split; [exact H|].
  exact (proj2 (index_bindings_come_from_entries [sample_entry] sample_index H)
           [] sample_entry _ _ eq_refl eq_refl).
Defined.

Section ResponseFacts.

Variable container_str : value -> string.
Variable et_parse : string -> outcome element.
Variable et_write : element -> string + (option string * exn).

Lemma build_all_incomplete (entries : list value)
    (analysis_map : gmap (string * string) value) :
  Forall (fun entry => incomplete entry = true) entries ->
  build_analysis_map entries analysis_map = Return analysis_map.
Proof.
  induction 1 as [|entry rest Hentry _ IH]; [reflexivity|].
  now rewrite build_incomplete.
Qed.

End ResponseFacts.

(** X15. A response without a usable entry changes nothing: when the
    [failures] of the response are missing, empty, or all without a test
    name or without an analysis, the call returns with the world as it was.
    No backup is made and the report is not even read. *)
Theorem unusable_response_changes_nothing (container_str : value -> string)
    (et_parse : string -> outcome element)
    (et_write : element -> string + (option string * exn))
    (xml_path : string) (items : list (string * value)) (entries : list value)
    (w : world) :
  iterate (field items "failures" (VList [])) = Return entries ->
  Forall (fun entry => incomplete entry = true) entries ->
  apply_result container_str et_parse et_write xml_path (VDict items) w
  = (Return tt, w).
Proof.
  intros Hiter Hentries. unfold apply_result, seq, lift. cbn [get].
  unfold field in Hiter. rewrite Hiter.
  now rewrite (build_all_incomplete entries ∅ Hentries).
Qed.

Lemma unusable_response_changes_nothing_witness :
  iterate (field [("status", VStr "done")] "failures" (VList [])) = Return []
  /\ Forall (fun entry => incomplete entry = true) []
  /\ apply_result no_containers sample_parse sample_write "report.xml"
       (VDict [("status", VStr "done")]) sample_world
     = (Return tt, sample_world).
Proof.
  split; [reflexivity|]. split; [constructor|].
  exact (unusable_response_changes_nothing no_containers sample_parse sample_write
           "report.xml" [("status", VStr "done")] [] sample_world eq_refl
           (List.Forall_nil _)).
Defined.

(** ** More on the whole call *)

Section SessionFacts.

Variable container_str : value -> string.
Variable py_int : string -> outcome Z.
Variable requests_post : request -> outcome response.
Variable et_parse : string -> outcome element.
Variable et_write : element -> string + (option string * exn).

Local Abbreviation enrich :=
  (enrich_junit_xml container_str py_int requests_post et_parse et_write).

(** What the rewrite does to the files, whatever fails. *)
Lemma rewrite_report_files (xml_path : string)
    (analysis_map : gmap (string * string) value) (w : world) :
  let after :=
    files (snd (rewrite_report container_str et_parse et_write xml_path
                  analysis_map w)) in
  (forall p, p <> xml_path -> Path.with_suffix xml_path ".xml.bak" <> Return p ->
             after !! p = files w !! p)
  /\ (forall original,
        files w !! xml_path = Some original ->
        not_lost container_str et_parse et_write xml_path original after).
Proof.
  destruct (Path.with_suffix xml_path ".xml.bak") as [backup_path|] eqn:Hbackup.
  2: { unfold rewrite_report, seq, lift. rewrite Hbackup. cbn.
       split; [reflexivity|]. intros original H. now left. }
  pose proof (with_suffix_fresh _ _ Hbackup) as Hfresh.
  assert (String.eqb xml_path backup_path = false) as Hneq
    by (apply String.eqb_neq; congruence).
  assert (String.eqb backup_path xml_path = false) as Hneq'
    by (apply String.eqb_neq; congruence).
  destruct (files w !! xml_path) as [original|] eqn:Horiginal.
  2: { unfold rewrite_report, seq, lift, copy2. rewrite Hbackup. cbn.
       rewrite Horiginal. cbn. split; [reflexivity|]. intros original H. discriminate. }
  destruct (copy_fault w xml_path backup_path) as [[[partial|] exc]|] eqn:Hmade.
  - unfold rewrite_report, seq, lift, copy2. rewrite Hbackup. cbn.
    rewrite Horiginal, Hneq, Hmade. cbn. split.
    + intros p Hp Hb. rewrite lookup_insert_ne by congruence. reflexivity.
    + intros ? [= <-]. left. now rewrite lookup_insert_ne by congruence.
  - unfold rewrite_report, seq, lift, copy2. rewrite Hbackup. cbn.
    rewrite Horiginal, Hneq, Hmade. cbn. split; [reflexivity|].
    intros ? [= <-]. now left.
  - cbv zeta. rewrite (rewrite_report_steps _ _ _ _ _ _ _ _ Hbackup Horiginal Hmade).
    destruct (rewritten _ _ _ _ _) as [content|[[partial|] failure]] eqn:Hsteps;
      unfold try_except, seq, copy2, unlink, throw;
      destruct (unlink_fault w backup_path) as [refusal|] eqn:Hunlink;
      destruct (copy_fault w backup_path xml_path) as [[[cut|] refusal']|] eqn:Hcopy;
      repeat (progress (cbn; rewrite ?Hcopy, ?Hunlink, ?Hneq', ?lookup_insert_eq;
                        repeat (rewrite lookup_insert_ne by congruence))).
    all: (split;
          [intros p Hp Hb; assert (p <> backup_path) by congruence;
           now simplify_map_eq
          |intros ? [= <-];
           first [left; now simplify_map_eq
                 |right; left; exists backup_path; split; [exact Hbackup|];
                  now simplify_map_eq
                 |right; right; exists analysis_map; eexists;
                  split; [exact Hsteps|]; now simplify_map_eq]]).
Qed.

Lemma exchange_files (server_url ai_provider ai_model : string)
    (failures : list failure) (w : world) :
  files (snd (exchange py_int requests_post server_url ai_provider ai_model failures w))
  = files w
  /\ logged (snd (exchange py_int requests_post server_url ai_provider ai_model
                    failures w))
     = logged w.
Proof.
  unfold exchange, seq, lift, post.
  destruct (py_int _); cbn; [|easy].
  destruct (requests_post _) as [response|]; cbn; [|easy].
  now destruct (raise_for_status response) as [[]|].
Qed.

Lemma apply_result_files (xml_path : string) (result : value) (w : world) :
  let after :=
    files (snd (apply_result container_str et_parse et_write xml_path result w)) in
  (forall p, p <> xml_path -> Path.with_suffix xml_path ".xml.bak" <> Return p ->
             after !! p = files w !! p)
  /\ (forall original,
        files w !! xml_path = Some original ->
        not_lost container_str et_parse et_write xml_path original after).
Proof.
  assert (Hsame : forall p : string, files w !! p = files w !! p) by reflexivity.
  unfold apply_result, seq, lift.
  destruct (get result "failures" (VList [])) as [listed|];
    [|split; [reflexivity|now left]].
  destruct (iterate listed) as [entries|]; [|split; [reflexivity|now left]].
  destruct (build_analysis_map entries ∅) as [analysis_map|];
    [|split; [reflexivity|now left]].
  destruct (bool_decide (analysis_map = ∅)); [split; [reflexivity|now left]|].
  apply rewrite_report_files.
Qed.

(** What the call does to the files. *)
Lemma enrich_files (session : session) (failures : list failure) (w : world) :
  let after := files (snd (enrich session failures w)) in
  (forall p, beside (report_of session) p -> after !! p = files w !! p)
  /\ (forall xml_path original,
        report_of session = Some xml_path ->
        files w !! xml_path = Some original ->
        not_lost container_str et_parse et_write xml_path original after)
  /\ (report_of session = None
      \/ (exists xml_path, report_of session = Some xml_path
                           /\ files w !! xml_path = None) ->
      after = files w).
Proof.
  unfold enrich_junit_xml, report_of, beside, path_exists.
  destruct (negb (requests w)).
  { split; [reflexivity|]. split; [now left|reflexivity]. }
  destruct (xmlpath session) as [raw|]; cbn [unset from_option id orb].
  2: { split; [reflexivity|]. split; [discriminate|reflexivity]. }
  destruct (String.eqb raw ""); cbn [orb].
  { split; [reflexivity|]. split; [discriminate|reflexivity]. }
  set (xml_path := Path.normal raw).
  destruct (bool_decide (is_Some (files w !! xml_path))) eqn:Hexists; cbn [negb orb].
  2: { split; [reflexivity|]. split; [now left|reflexivity]. }
  apply bool_decide_eq_true in Hexists as [text Htext].
  assert (Habsent : forall fs : gmap string string,
             Some xml_path = None
             \/ (exists p, Some xml_path = Some p /\ files w !! p = None) ->
             fs = files w).
  { intros fs [H|(p & [= <-] & H)]; [discriminate|congruence]. }
  destruct (bool_decide (failures = [])).
  { split; [reflexivity|]. split; [now left|apply Habsent]. }
  destruct (unset (environ w !! "JJI_SERVER_URL")).
  { split; [reflexivity|]. split; [now left|apply Habsent]. }
  destruct (_ || _).
  { split; [reflexivity|]. split; [now left|apply Habsent]. }
  pose proof (exchange_files (from_option id "" (environ w !! "JJI_SERVER_URL"))
                (from_option id "" (environ w !! "JJI_AI_PROVIDER"))
                (from_option id "" (environ w !! "JJI_AI_MODEL")) failures w)
    as [Hfiles _].
  destruct (exchange _ _ _ _ _ _ w) as [[result|exc] w1]; cbn [snd] in Hfiles.
  - destruct (apply_result_files xml_path result w1) as [Hbeside Hkept].
    cbv zeta in *. rewrite Hfiles in *. split; [|split; [|apply Habsent]].
    + intros p Hp. destruct (Hp xml_path eq_refl). now apply Hbeside.
    + intros ? original [= <-]. apply Hkept.
  - assert (files (snd (if is_RequestException (exc_type exc)
                        then request_failed exc w1 else (Raise exc, w1)))
            = files w) as ->
      by (destruct (is_RequestException (exc_type exc)); exact Hfiles).
    split; [reflexivity|]. split; [now left|apply Habsent].
Qed.

(** The call logs a record only when it returns, and then at most one. *)
Lemma enrich_logged (session : session) (failures : list failure) (w : world) :
  match enrich session failures w with
  | (Return _, w') => logs_at_most_one w w'
  | (Raise _, w') => logged w' = logged w
  end.
Proof.
  unfold enrich_junit_xml, logs_at_most_one.
  destruct (negb (requests w)); [now left|].
  destruct (_ || _ || _); [now left|].
  destruct (unset (environ w !! "JJI_SERVER_URL")); [right; now eexists|].
  destruct (_ || _); [right; now eexists|].
  pose proof (exchange_files (from_option id "" (environ w !! "JJI_SERVER_URL"))
                (from_option id "" (environ w !! "JJI_AI_PROVIDER"))
                (from_option id "" (environ w !! "JJI_AI_MODEL")) failures w)
    as [_ Hlog].
  destruct (exchange _ _ _ _ _ _ w) as [[result|exc] w1]; cbn [snd] in Hlog.
  - pose proof (proj1 (quiet_apply_result container_str et_parse et_write
                         (Path.normal (from_option id "" (xmlpath session))) result w1))
      as Hq.
    destruct (apply_result _ _ _ _ _ w1) as [[[]|exc] w2]; cbn [snd] in Hq.
    + left. congruence.
    + congruence.
  - destruct (is_RequestException (exc_type exc)).
    + right. exists (request_error exc). cbn. now rewrite Hlog.
    + exact Hlog.
Qed.

End SessionFacts.

(** X16. What a session can do to the files, whatever the server, the
    parser, the writer and the file system do. [pytest_sessionfinish]
    changes no file but the report and the backup path of the report, and
    the text of the report is not lost: afterwards the report holds it, or
    the backup path holds it, or the report holds the text that
    [tree.write] wrote in full for the tree parsed from it and enriched.
    Without a report, no file changes at all. *)
Theorem session_keeps_the_report_text (container_str : value -> string)
    (py_int : string -> outcome Z) (requests_post : request -> outcome response)
    (et_parse : string -> outcome element)
    (et_write : element -> string + (option string * exn))
    (session : session) (collected : list failure) (w : world) :
  let after :=
    files (snd (pytest_sessionfinish container_str py_int requests_post et_parse
                  et_write session collected w)) in
  (forall p, beside (report_of session) p -> after !! p = files w !! p)
  /\ (forall xml_path original,
        report_of session = Some xml_path ->
        files w !! xml_path = Some original ->
        not_lost container_str et_parse et_write xml_path original after)
  /\ (report_of session = None
      \/ (exists xml_path, report_of session = Some xml_path
                           /\ files w !! xml_path = None) ->
      after = files w).
Proof.
  unfold pytest_sessionfinish, try_except.
  pose proof (enrich_files container_str py_int requests_post et_parse et_write
                session collected w) as H.
  now destruct (enrich_junit_xml _ _ _ _ _ session collected w) as [[[]|exc] w'].
Qed.

(** X17. A session logs at most one record: a warning for a missing
    setting, the error of a failed request, or the error of an enrichment
    that raised; never two of them. *)
Theorem session_logs_at_most_one_record (container_str : value -> string)
    (py_int : string -> outcome Z) (requests_post : request -> outcome response)
    (et_parse : string -> outcome element)
    (et_write : element -> string + (option string * exn))
    (session : session) (collected : list failure) (w : world) :
  logs_at_most_one w
    (snd (pytest_sessionfinish container_str py_int requests_post et_parse et_write
            session collected w)).
Proof.
  unfold pytest_sessionfinish, try_except.
  pose proof (enrich_logged container_str py_int requests_post et_parse et_write
                session collected w) as H.
  destruct (enrich_junit_xml _ _ _ _ _ session collected w) as [[[]|exc] w'].
  - exact H.
  - right. eexists. cbn. now rewrite H.
Qed.

(** ** The storage of results *)

Section StorageFacts.

Import Storage.

Variable json_dumps : value -> string.
Variable json_loads : string -> outcome value.

(** X18. What is saved is what is read: after [save_result], [get_result]
    for the same job gives the url and status saved, the time of the save,
    and the result decoded from the text it was encoded to; without a
    result it gives none. The rows of the other jobs are as they were. *)
Theorem saved_result_is_read (now job_id url st : string) (result : option value)
    (d : db) (rows : gmap string row) :
  table d = Some rows ->
  (forall v, result = Some v ->
             json_dumps v <> EmptyString /\ json_loads (json_dumps v) = Return v) ->
  let d' := snd (save_result json_dumps now job_id url st result d) in
  get_result json_loads job_id d' = Done (Some (View job_id url st result now))
  /\ (forall other, other <> job_id ->
        get_result json_loads other d' = get_result json_loads other d).
Proof.
  intros Htable Hjson. unfold save_result, say. cbn. rewrite Htable. cbn. split.
  - unfold get_result. cbn. rewrite lookup_insert_eq. cbn.
    destruct result as [v|]; [|reflexivity]. cbn.
    destruct (Hjson v eq_refl) as [Hne ->].
    now apply String.eqb_neq in Hne as ->.
  - intros other Hother. unfold get_result. cbn.
    rewrite lookup_insert_ne by congruence. now rewrite Htable.
Qed.

(** X19. [update_status] keeps what [save_result] replaces. After a save
    and an update without a result, the job reads with the new status, the
    result of the save and the time of the save. An update for a job
    without a row makes no row: the job still reads as absent, and a
    warning is logged. *)
Theorem update_status_keeps_the_row (now job_id url st st' : string)
    (result : option value) (d : db) (rows : gmap string row) :
  table d = Some rows ->
  (forall v, result = Some v ->
             json_dumps v <> EmptyString /\ json_loads (json_dumps v) = Return v) ->
  get_result json_loads job_id
    (snd (update_status json_dumps job_id st' None
            (snd (save_result json_dumps now job_id url st result d))))
  = Done (Some (View job_id url st' result now))
  /\ (rows !! job_id = None ->
      get_result json_loads job_id (snd (update_status json_dumps job_id st' result d))
      = Done None
      /\ log (snd (update_status json_dumps job_id st' result d))
         = log d ++ [(DEBUG, "Updating status for job_id: " +:+ job_id
                               +:+ " (status: " +:+ st' +:+ ")");
                     (WARN, "update_status: no row found for job_id=" +:+ job_id)]).
Proof.
  intros Htable Hjson. split.
  - unfold update_status, save_result, get_result, say. cbn. rewrite Htable. cbn.
    rewrite lookup_insert_eq. cbn. rewrite lookup_insert_eq. cbn.
    destruct result as [v|]; [|reflexivity]. cbn.
    destruct (Hjson v eq_refl) as [Hne ->].
    now apply String.eqb_neq in Hne as ->.
  - intros Hnone. unfold update_status, get_result, say. cbn. rewrite Htable, Hnone. cbn.
    rewrite ?Htable, ?Hnone. split; [reflexivity|]. now rewrite <- app_assoc.
Qed.

End StorageFacts.

Lemma saved_result_is_read_witness :
  Storage.table (Storage.Db (Some ∅) []) = Some ∅
  /\ Storage.get_result (fun _ => Return (VDict []))  "job-1"
       (snd (Storage.save_result (fun _ => "{}") "2026-01-01 00:00:00" "job-1"
               "https://jenkins.example.com/job/my-job/123/" "completed"
               (Some (VDict [])) (Storage.Db (Some ∅) [])))
     = Storage.Done
         (Some (Storage.View "job-1" "https://jenkins.example.com/job/my-job/123/"
                  "completed" (Some (VDict [])) "2026-01-01 00:00:00")).
Proof.
  split; [reflexivity|].
  refine (proj1 (saved_result_is_read (fun _ => "{}") (fun _ => Return (VDict []))
                   "2026-01-01 00:00:00" "job-1" _ "completed" (Some (VDict []))
                   (Storage.Db (Some ∅) []) ∅ eq_refl _)).
  intros v [= <-]. split; [discriminate|reflexivity].
Defined.

Lemma update_status_keeps_the_row_witness :
  Storage.table (Storage.Db (Some ∅) []) = Some ∅
  /\ Storage.get_result (fun _ => Return (VDict [])) "job-1"
       (snd (Storage.update_status (fun _ => "{}") "job-1" "completed" None
               (snd (Storage.save_result (fun _ => "{}") "2026-01-01 00:00:00" "job-1"
                       "https://jenkins.example.com/job/my-job/123/" "running"
                       (Some (VDict [])) (Storage.Db (Some ∅) [])))))
     = Storage.Done
         (Some (Storage.View "job-1" "https://jenkins.example.com/job/my-job/123/"
                  "completed" (Some (VDict [])) "2026-01-01 00:00:00")).
Proof.
  split; [reflexivity|].
  refine (proj1 (update_status_keeps_the_row (fun _ => "{}") (fun _ => Return (VDict []))
                   "2026-01-01 00:00:00" "job-1" _ "running" "completed"
                   (Some (VDict [])) (Storage.Db (Some ∅) []) ∅ eq_refl _)).
  intros v [= <-]. split; [discriminate|reflexivity].
Defined.
